(** * Intelligent Underwriting Assistant: a shallow embedding of the backend

    The backend has two Python modules.  [core.py] builds the retrieval
    pipeline (guidelines loader, chunker, embeddings, vector store, prompt,
    chain) and extracts the text of an uploaded PDF; [main.py] is the FastAPI
    application: a start-up hook that fills the process-wide dictionary
    [app_state], and the two handlers [read_root] and [analyze_application].

    Python exceptions are values of [exn] carried by [result]; the global
    dictionary and the model server are threaded through a state monad [M];
    the collaborators that live outside the repository (PyPDF2, Ollama, the
    file system) are interfaces, given as type classes.  Console output
    ([print]) is not modelled. *)

From Stdlib Require Import String Ascii List Arith Lia Bool DecimalString NArith.
From stdpp Require Import gmap strings.
Import ListNotations.

Local Open Scope string_scope.
Local Open Scope nat_scope.

(** stdpp keeps [simpl] from unfolding string concatenation; the proofs
    below compute with it. *)
#[local] Arguments String.append !s1 s2.

(** ** Python exceptions and results *)

(** Instances of Python's [Exception].  [HTTPException] is FastAPI's; every
    other class is kept as [Exception] with its message. *)
Inductive exn : Type :=
| Exception (msg : string)
| HTTPException (status_code : nat) (detail : string).

Inductive result (A : Type) : Type :=
| Ok (a : A)
| Raise (e : exn).
Arguments Ok {A} a.
Arguments Raise {A} e.

Module Res.
Definition bind {A B} (r : result A) (k : A -> result B) : result B :=
  match r with
  | Ok a => k a
  | Raise e => Raise e
  end.

(** [try: body  except Exception as e: handler e] *)
Definition try_except {A} (body : result A) (handler : exn -> result A) : result A :=
  match body with
  | Ok a => Ok a
  | Raise e => handler e
  end.
End Res.

(** ** Python string operations *)

(** [needle in hay] *)
Fixpoint str_in (needle hay : string) : bool :=
  if String.prefix needle hay then true
  else match hay with
       | EmptyString => false
       | String _ rest => str_in needle rest
       end.

(** [s.endswith(suffix)] *)
Definition endswith (s suffix : string) : bool :=
  let n := String.length s in
  let m := String.length suffix in
  (m <=? n) && String.eqb (String.substring (n - m) m s) suffix.

(** [not s] for a string: the empty string is falsy. *)
Definition str_falsy (s : string) : bool :=
  match s with
  | EmptyString => true
  | String _ _ => false
  end.

(** [t] occurs in [s] as a contiguous block. *)
Definition substring_of (t s : string) : Prop :=
  exists pre post, s = pre ++ t ++ post.

(** ** core.py: PDF text extraction *)

(** PyPDF2 as seen by [load_application_text_from_bytes]: opening a reader
    over the bytes gives the pages or raises, and so does [extract_text] on a
    page. *)
Class PdfParser : Type := {
  page : Type;
  PdfReader : list Byte.byte -> result (list page);
  extract_text : page -> result string
}.

Definition could_not_read : string := "Error: Could not read text from PDF.".

Section Extraction.
Context {parser : PdfParser}.

(** [for page in reader.pages: application_text += page.extract_text()] *)
Fixpoint extract_pages (pages : list page) (application_text : string) : result string :=
  match pages with
  | [] => Ok application_text
  | p :: rest =>
      Res.bind (extract_text p)
               (fun t => extract_pages rest (application_text ++ t))
  end.

Definition load_application_text_from_bytes (pdf_bytes : list Byte.byte) : result string :=
  Res.try_except
    (Res.bind (PdfReader pdf_bytes) (fun pages =>
     Res.bind (extract_pages pages "") (fun application_text =>
     if str_falsy application_text
     then Ok could_not_read
     else Ok application_text)))
    (fun e => Ok could_not_read).

(** The texts of the pages, one after the other, nothing in between. *)
Definition page_concat (texts : list string) : string :=
  fold_right String.append "" texts.

(** Every page of [pages] gives its text in [texts]. *)
Definition pages_yield (pages : list page) (texts : list string) : Prop :=
  Forall2 (fun p t => extract_text p = Ok t) pages texts.

(** The claim of the page-order concatenation, as the specification words
    it: whatever the pages' texts are, their concatenation is returned. *)
Definition returns_page_concat (pdf_bytes : list Byte.byte) : Prop :=
  forall pages texts,
    PdfReader pdf_bytes = Ok pages ->
    pages_yield pages texts ->
    load_application_text_from_bytes pdf_bytes = Ok (page_concat texts).
End Extraction.

(** ** core.py: the prompt *)

Definition nl : string := String "010"%char EmptyString.
Definition dquote : string := String "034"%char EmptyString.

(** The lines of the triple-quoted literal bound to [system_prompt] in
    [create_rag_chain], between its opening newline and its last line. *)
Definition system_prompt_lines : list string :=
  [ "    You are an expert underwriting assistant. Your task is to analyze a";
    "    loan application based *only* on the provided 'Underwriting Guidelines'.";
    "    ";
    "    Do not use any external knowledge.";
    "    ";
    "    Analyze the following 'Loan Application' against the 'Underwriting Guidelines'.";
    "    ";
    "    Guidelines:";
    "    {context}";
    "    ";
    "    Loan Application:";
    "    {input}";
    "    ";
    "    Please provide your analysis in the following format:";
    "    ";
    "    **Summary:**";
    "    [Provide a brief summary of the loan application.]";
    "    ";
    "    **Flagged Risks:**";
    "    [List all violations or risks found in the application based on the guidelines. ";
    "    For each risk, state the guideline that was violated and why. ";
    "    If no risks are found, state " ++ dquote ++ "No risks flagged." ++ dquote ++ " ]" ].

Definition system_prompt : string :=
  nl ++ fold_right (fun line rest => line ++ nl ++ rest) "    " system_prompt_lines.

(** [str.format] with keyword arguments, as the prompt template applies it:
    the format string is cut into literal text and replacement fields
    [{name}], then each field is replaced by its argument.  Brace escapes and
    format specifications, which [system_prompt] has none of, are left out. *)
Inductive piece : Type :=
| Literal (text : string)
| Field (name : string).

Definition snoc (s : string) (c : ascii) : string := s ++ String c EmptyString.

Fixpoint parse_format (fmt : string) (literal : string) (field : option string)
  : result (list piece) :=
  match fmt with
  | EmptyString =>
      match field with
      | None => Ok [Literal literal]
      | Some _ => Raise (Exception "ValueError: expected '}' before end of string")
      end
  | String c rest =>
      match field with
      | None =>
          if Ascii.eqb c "{"%char then
            Res.bind (parse_format rest "" (Some "")) (fun ps => Ok (Literal literal :: ps))
          else if Ascii.eqb c "}"%char then
            Raise (Exception "ValueError: Single '}' encountered in format string")
          else parse_format rest (snoc literal c) None
      | Some name =>
          if Ascii.eqb c "}"%char then
            Res.bind (parse_format rest "" None) (fun ps => Ok (Field name :: ps))
          else parse_format rest "" (Some (snoc name c))
      end
  end.

Fixpoint render (ps : list piece) (kwargs : gmap string string) : result string :=
  match ps with
  | [] => Ok ""
  | Literal text :: rest =>
      Res.bind (render rest kwargs) (fun tail => Ok (text ++ tail))
  | Field name :: rest =>
      match kwargs !! name with
      | Some value => Res.bind (render rest kwargs) (fun tail => Ok (value ++ tail))
      | None => Raise (Exception ("KeyError: " ++ name))
      end
  end.

Definition format (fmt : string) (kwargs : gmap string string) : result string :=
  Res.bind (parse_format fmt "" None) (fun ps => render ps kwargs).

(** [create_stuff_documents_chain] joins the page contents of the retrieved
    documents with its document separator, a blank line by default. *)
Definition document_separator : string := nl ++ nl.

Fixpoint join (sep : string) (parts : list string) : string :=
  match parts with
  | [] => ""
  | [p] => p
  | p :: rest => p ++ sep ++ join sep rest
  end.

(** A prompt template filled in: [context] is bound to the joined chunks and
    [input] to the application text. *)
Definition fill_prompt (template : string) (context_chunks : list string)
    (application_text : string) : result string :=
  format template
         (<["context" := join document_separator context_chunks]>
            (<["input" := application_text]> ∅)).

(** The chat prompt, which is one system message, as the text-completion
    model is handed it: the role, a colon, the content. *)
Definition to_string (system_message : string) : string := "System: " ++ system_message.

(** The prompt composer of the chain: the template is [system_prompt]. *)
Definition compose (context_chunks : list string) (application_text : string) : result string :=
  fill_prompt system_prompt context_chunks application_text.


(** ** The text splitter *)

(** The guidelines are cut by [RecursiveCharacterTextSplitter] of the
    library langchain_text_splitters, which [core.py] imports and whose code
    is not among the sources.  The definitions below follow that class as
    [create_vector_db] configures it: lengths are counted in characters
    ([len]), the separators are the defaults (blank line, line break, space,
    and the empty separator that cuts between any two characters), a
    separator stays in front of the piece that follows it, and every chunk
    is stripped of the white space around it. *)

(** A character of a Python string, as the bytes that encode it in UTF-8:
    a byte that starts a character and the continuation bytes after it. *)
Definition is_continuation (b : ascii) : bool :=
  match b with
  | Ascii _ _ _ _ _ _ false true => true
  | _ => false
  end.

Definition starts_continuation (s : string) : bool :=
  match s with
  | EmptyString => false
  | String b _ => is_continuation b
  end.

Fixpoint utf8_chars (s : string) : list string :=
  match s with
  | EmptyString => []
  | String b rest =>
      match utf8_chars rest with
      | c :: cs =>
          if starts_continuation rest then String b c :: cs
          else String b EmptyString :: c :: cs
      | [] => [String b EmptyString]
      end
  end.


(** [c.isspace()] for one character: the white space of Unicode, by code
    point 9-13, 28-32, 0x85, 0xA0, 0x1680, 0x2000-0x200A, 0x2028, 0x2029,
    0x202F, 0x205F and 0x3000. *)
Definition isspace (c : string) : bool :=
  match map N_of_ascii (list_ascii_of_string c) with
  | [b] => ((9 <=? b) && (b <=? 13) || (28 <=? b) && (b <=? 32))%N
  | [194; b]%N => ((b =? 133) || (b =? 160))%N
  | [225; 154; 128]%N => true
  | [226; 128; b]%N =>
      ((128 <=? b) && (b <=? 138) || (b =? 168) || (b =? 169) || (b =? 175))%N
  | [226; 129; 159]%N => true
  | [227; 128; 128]%N => true
  | _ => false
  end.

Fixpoint lstrip (cs : list string) : list string :=
  match cs with
  | [] => []
  | c :: rest => if isspace c then lstrip rest else cs
  end.

(** [text.strip()] on the characters of [text]. *)
Definition strip (cs : list string) : list string :=
  rev (lstrip (rev (lstrip cs))).

Fixpoint chars_eqb (a b : list string) : bool :=
  match a, b with
  | [], [] => true
  | x :: a', y :: b' => String.eqb x y && chars_eqb a' b'
  | _, _ => false
  end.

Fixpoint starts_with (sep text : list string) : bool :=
  match sep, text with
  | [], _ => true
  | x :: sep', y :: text' => String.eqb x y && starts_with sep' text'
  | _ :: _, [] => false
  end.

(** [re.search(re.escape(sep), text)] for a separator that is not empty. *)
Fixpoint occurs (sep text : list string) : bool :=
  starts_with sep text ||
  match text with
  | [] => false
  | _ :: rest => occurs sep rest
  end.

(** [re.split] on the escaped separator, the separator kept in front of the
    piece after it: the matches are taken from left to right and do not
    overlap ([skip] counts the characters of a match still to pass), and
    [current] is the piece being read. *)
Fixpoint split_keep (sep text current : list string) (skip : nat) : list (list string) :=
  match text with
  | [] => [current]
  | c :: rest =>
      match skip with
      | S k => split_keep sep rest (current ++ [c]) k
      | 0 =>
          if starts_with sep text
          then current :: split_keep sep rest [c] (length sep - 1)
          else split_keep sep rest (current ++ [c]) 0
      end
  end.

Definition nonempty (piece : list string) : bool :=
  match piece with
  | [] => false
  | _ :: _ => true
  end.

(** [_split_text_with_regex(text, separator, keep_separator=True)]: with
    the empty separator the pieces are the characters; empty pieces are
    left out. *)
Definition split_with_regex (sep text : list string) : list (list string) :=
  match sep with
  | [] => map (fun c => [c]) text
  | _ :: _ => filter nonempty (split_keep sep text [] 0)
  end.

Section Splitter.
Variables chunk_size chunk_overlap : nat.

(** [_join_docs(docs, "")]: the pieces joined and stripped, [None] when
    nothing is left. *)
Definition join_docs (docs : list (list string)) : option (list string) :=
  match strip (concat docs) with
  | [] => None
  | text => Some text
  end.

Definition option_list {A} (o : option A) : list A :=
  match o with
  | Some a => [a]
  | None => []
  end.

(** The [while] loop of [_merge_splits]: pieces leave the front of
    [current_doc] while more than the overlap is held, or while the next
    piece of length [len] would not fit. *)
Fixpoint pop_front (current_doc : list (list string)) (total len : nat)
  : list (list string) * nat :=
  match current_doc with
  | [] => ([], total)
  | d :: rest =>
      if (chunk_overlap <? total) || ((chunk_size <? total + len) && (0 <? total))
      then pop_front rest (total - length d) len
      else (current_doc, total)
  end.

(** One turn of the [for] loop of [_merge_splits], the joining separator
    being empty: the state is [docs], [current_doc] and [total]. *)
Definition merge_step (state : list (list string) * list (list string) * nat)
    (d : list string) : list (list string) * list (list string) * nat :=
  let '(docs, current_doc, total) := state in
  if chunk_size <? total + length d then
    match current_doc with
    | [] => (docs, [d], total + length d)
    | _ :: _ =>
        let (kept, total') := pop_front current_doc total (length d) in
        ((docs ++ option_list (join_docs current_doc))%list,
         (kept ++ [d])%list, total' + length d)
    end
  else (docs, (current_doc ++ [d])%list, total + length d).

(** [_merge_splits(splits, "")] *)
Definition merge_splits (splits : list (list string)) : list (list string) :=
  let '(docs, current_doc, _) := fold_left merge_step splits ([], [], 0) in
  (docs ++ option_list (join_docs current_doc))%list.

(** One turn of the [for] loop of [_split_text]: the state is
    [final_chunks] and [_good_splits]; [deeper] is the call with the
    separators that are left, when some are. *)
Definition split_step (deeper : option (list string -> list (list string)))
    (state : list (list string) * list (list string)) (s : list string)
  : list (list string) * list (list string) :=
  let (final_chunks, good_splits) := state in
  if length s <? chunk_size then (final_chunks, (good_splits ++ [s])%list)
  else
    let flushed :=
      match good_splits with
      | [] => final_chunks
      | _ :: _ => (final_chunks ++ merge_splits good_splits)%list
      end in
    match deeper with
    | None => ((flushed ++ [s])%list, [])
    | Some again => ((flushed ++ again s)%list, [])
    end.

Definition split_level (sep : list string)
    (deeper : option (list string -> list (list string))) (text : list string)
  : list (list string) :=
  let (final_chunks, good_splits) :=
    fold_left (split_step deeper) (split_with_regex sep text) ([], []) in
  match good_splits with
  | [] => final_chunks
  | _ :: _ => (final_chunks ++ merge_splits good_splits)%list
  end.

(** [_split_text(text, separators)]: the first separator that is empty or
    occurs in the text is taken, the last one if none does, and only after
    a separator that occurs are the later ones left for the pieces that are
    too long. *)
Fixpoint split_recursive (separators : list (list string)) (text : list string)
  : list (list string) :=
  match separators with
  | [] => []
  | sep :: rest =>
      match rest with
      | [] => split_level sep None text
      | _ :: _ =>
          if negb (nonempty sep) then split_level sep None text
          else if occurs sep text
               then split_level sep (Some (split_recursive rest)) text
               else split_recursive rest text
      end
  end.
End Splitter.

Fixpoint repeat_string (n : nat) (s : string) : string :=
  match n with
  | 0 => ""
  | S k => s ++ repeat_string k s
  end.

(** The letter e with an acute accent, two bytes in UTF-8. *)
Definition e_acute : string :=
  String (ascii_of_nat 195) (String (ascii_of_nat 169) EmptyString).

(** The default separators. *)
Definition separators : list (list string) := [[nl; nl]; [nl]; [" "]; []].

(** [text_splitter.split_text(text)] *)
Definition split_text (chunk_size chunk_overlap : nat) (text : string) : list string :=
  map (join "")
      (split_recursive chunk_size chunk_overlap separators (utf8_chars text)).

(** [text_splitter.split_documents(documents)]: the chunks of every loaded
    document, in order. *)
Definition split_documents (chunk_size chunk_overlap : nat) (documents : list string) : list string :=
  concat (map (split_text chunk_size chunk_overlap) documents).

(** The chunks put together again, [overlaps] saying how many leading
    characters of each chunk after the first repeat the chunk before it. *)
Fixpoint glue_rest (overlaps : list nat) (chunks : list string) : list string :=
  match chunks with
  | [] => []
  | c :: rest =>
      match overlaps with
      | [] => utf8_chars c ++ glue_rest [] rest
      | n :: overlaps' => skipn n (utf8_chars c) ++ glue_rest overlaps' rest
      end
  end.

Definition glue (overlaps : list nat) (chunks : list string) : string :=
  match chunks with
  | [] => ""
  | c :: rest => join "" (utf8_chars c ++ glue_rest overlaps rest)
  end.

(** The two halves of the claim about the chunker, as the specification
    words them, for the splitter as [create_vector_db] configures it: the
    chunks, with the overlaps taken out, are the document; and a document
    shorter than the chunk size is one chunk. *)
Definition chunker_reconstructs (document : string) : Prop :=
  exists overlaps, glue overlaps (split_text 1000 200 document) = document.


(** ** Collaborators outside the repository *)

(** The file system and the Ollama server.  [world] is their state: a call
    may change it and may answer differently the next time.  [more_similar q
    a b] says that [a] is strictly nearer to the query vector [q] than [b]
    is, in the metric of the vector store. *)
Class Collaborators : Type := {
  world : Type;
  vec : Type;
  base_dir : string;
  load_text : string -> world -> result string * world;
  embed : string -> world -> result vec * world;
  generate : string -> world -> result string * world;
  more_similar : vec -> vec -> vec -> bool
}.

(** What was asked of the model server, oldest first. *)
Inductive call : Type :=
| EmbedCall (text : string)
| GenerateCall (prompt : string).

Section Backend.
Context {collab : Collaborators}.

(** *** Data *)

Record Chunk : Type := {
  chunk_id : nat;
  chunk_text : string;
  chunk_vector : vec
}.

(** [vector_db.as_retriever(search_kwargs={"k": k})] *)
Record retriever : Type := {
  vector_db : list Chunk;
  search_k : nat
}.

(** What [create_rag_chain] puts together: the retriever and the prompt
    template (the model, "mistral", is the one [generate] stands for). *)
Record rag_chain : Type := {
  chain_retriever : retriever;
  chain_prompt : string
}.

(** The dictionary [rag_chain.invoke] returns. *)
Record chain_output : Type := {
  out_input : string;
  out_context : list string;
  out_answer : string
}.

(** The process: the global dictionary [app_state] of main.py, the
    collaborators' state, and the calls made to the model server. *)
Record server : Type := {
  app_state : gmap string rag_chain;
  outside : world;
  calls : list call
}.

(** *** The monad of the backend: state, and exceptions that keep it *)

Definition M (A : Type) : Type := server -> result A * server.

Definition ret {A} (a : A) : M A := fun s => (Ok a, s).

Definition bind {A B} (m : M A) (k : A -> M B) : M B :=
  fun s => match m s with
           | (Ok a, s') => k a s'
           | (Raise e, s') => (Raise e, s')
           end.

Definition raise {A} (e : exn) : M A := fun s => (Raise e, s).

Definition lift {A} (r : result A) : M A := fun s => (r, s).

Definition try_except {A} (body : M A) (handler : exn -> M A) : M A :=
  fun s => match body s with
           | (Ok a, s') => (Ok a, s')
           | (Raise e, s') => handler e s'
           end.

(** A call to a collaborator: it moves [outside]. *)
Definition external {A} (f : world -> result A * world) : M A :=
  fun s => let (r, w) := f (outside s) in
           (r, {| app_state := app_state s; outside := w; calls := calls s |}).

Definition record_call (c : call) : M unit :=
  fun s => (Ok tt, {| app_state := app_state s; outside := outside s;
                      calls := calls s ++ [c] |}).

(** [app_state.get(key)] *)
Definition app_state_get (key : string) : M (option rag_chain) :=
  fun s => (Ok (app_state s !! key), s).

(** [app_state[key] = value] *)
Definition app_state_set (key : string) (value : rag_chain) : M unit :=
  fun s => (Ok tt, {| app_state := <[key := value]> (app_state s);
                      outside := outside s; calls := calls s |}).

(** [app_state.clear()] *)
Definition app_state_clear : M unit :=
  fun s => (Ok tt, {| app_state := ∅; outside := outside s; calls := calls s |}).

(** A computation that leaves the dictionary [app_state] as it found it,
    whatever it returns or raises. *)
Definition read_only {A} (m : M A) : Prop :=
  forall s, app_state (snd (m s)) = app_state s.
End Backend.

Declare Scope backend_scope.
Delimit Scope backend_scope with backend.
Notation "x <- m ;; k" := (bind m (fun x => k))
  (at level 100, m at next level, right associativity) : backend_scope.
Notation "m ;;; k" := (bind m (fun _ => k))
  (at level 100, right associativity) : backend_scope.

Local Open Scope backend_scope.

Section Core.
Context {collab : Collaborators}.

(** *** The vector index and the retriever *)

(** Modelled from the spec: [build] of the Vector Index (section 4.3); the
    vector store belongs to a library that is not part of the sources.  The
    chunks are kept in insertion order, and an empty corpus is refused. *)
Fixpoint number_chunks (next : nat) (chunks : list (string * vec)) : list Chunk :=
  match chunks with
  | [] => []
  | (text, v) :: rest =>
      {| chunk_id := next; chunk_text := text; chunk_vector := v |}
        :: number_chunks (S next) rest
  end.

(** Modelled from the spec: [build] refuses an empty corpus (section 4.3). *)
Definition build (chunks : list (string * vec)) : result (list Chunk) :=
  match chunks with
  | [] => Raise (Exception "EmptyCorpusError")
  | _ :: _ => Ok (number_chunks 0 chunks)
  end.

(** Modelled from the spec: ranking by descending similarity to the query
    vector, ties kept in insertion order (section 4.3).  [c] was inserted
    before every chunk of [ranked]: it passes only those strictly nearer
    to the query. *)
Fixpoint rank_insert (q : vec) (c : Chunk) (ranked : list Chunk) : list Chunk :=
  match ranked with
  | [] => [c]
  | d :: rest =>
      if more_similar q (chunk_vector d) (chunk_vector c)
      then d :: rank_insert q c rest
      else c :: d :: rest
  end.

(** Modelled from the spec: the whole index ranked for a query vector. *)
Definition rank (q : vec) (index : list Chunk) : list Chunk :=
  fold_right (rank_insert q) [] index.

(** Modelled from the spec: [search] of the Vector Index (section 4.3): the
    [k] nearest chunks, all of them when the index holds fewer. *)
Definition search (index : list Chunk) (q : vec) (k : nat) : list Chunk :=
  firstn k (rank q index).

(** One request to the embedding model. *)
Definition embed_text (text : string) : M vec :=
  record_call (EmbedCall text) ;;; external (embed text).

Fixpoint embed_documents (texts : list string) : M (list vec) :=
  match texts with
  | [] => ret []
  | t :: rest =>
      v <- embed_text t ;;
      vs <- embed_documents rest ;;
      ret (v :: vs)
  end.

(** Modelled from the spec: [Chroma.from_documents(documents=chunks,
    embedding=embeddings)], the start-up step that embeds every chunk and
    loads the pairs into the Vector Index (section 2, control flow). *)
Definition from_documents (chunks : list string) : M (list Chunk) :=
  vectors <- embed_documents chunks ;;
  lift (build (combine chunks vectors)).

(** Modelled from the spec: [retrieve] of the Retriever (section 4.4):
    embed the query, search the index with the retriever's [k], keep the
    texts in order. *)
Definition retrieve (r : retriever) (query_text : string) : M (list string) :=
  v <- embed_text query_text ;;
  ret (map chunk_text (search (vector_db r) v (search_k r))).

(** *** core.py *)

Definition create_vector_db (file_path : string) : M retriever :=
  document <- external (load_text file_path) ;;
  let chunks := split_documents 1000 200 [document] in
  db <- from_documents chunks ;;
  ret {| vector_db := db; search_k := 3 |}.

Definition create_rag_chain (r : retriever) : rag_chain :=
  {| chain_retriever := r; chain_prompt := system_prompt |}.

(** [rag_chain.invoke({"input": input})], as the comments of
    [create_rag_chain] describe the two chains: the input finds its context
    through the retriever, input and context are stuffed into the prompt,
    and the model gives the answer. *)
Definition invoke (chain : rag_chain) (input : string) : M chain_output :=
  context <- retrieve (chain_retriever chain) input ;;
  prompt <- lift (fill_prompt (chain_prompt chain) context input) ;;
  answer <- (record_call (GenerateCall (to_string prompt)) ;;;
             external (generate (to_string prompt))) ;;
  ret {| out_input := input; out_context := context; out_answer := answer |}.
End Core.

(** The claim that the cutoff can be chosen by the caller, as the
    specification words it: some call of the retriever construction gives a
    retriever whose [k] is not 3. *)
Definition retrieval_cutoff_configurable : Prop :=
  exists (collab : Collaborators) (file_path : string) (s s' : server) (r : retriever),
    create_vector_db file_path s = (Ok r, s') /\ search_k r <> 3.

(** ** main.py *)

Record UploadFile : Type := {
  filename : string;
  contents : list Byte.byte
}.

(** The body of an HTTP answer: a JSON object of strings, or plain text. *)
Inductive payload : Type :=
| Json (fields : list (string * string))
| PlainText (text : string).

Record http_response : Type := {
  status : nat;
  body : payload
}.

(** A request that the framework has routed to one of the two handlers of
    main.py: [GET /], or [POST /analyze] with its [file] part.  What the
    framework answers on its own (a missing [file] part, another path or
    method) never reaches the code of the repository and is not a
    [request]. *)
Inductive request : Type :=
| GetRoot
| PostAnalyze (file : UploadFile).

Section Main.
Context {parser : PdfParser} {collab : Collaborators}.

Definition guidelines_path : string := base_dir ++ "/data/guidelines.txt".

(** [lifespan] up to its [yield]. *)
Definition lifespan_startup : M unit :=
  r <- create_vector_db guidelines_path ;;
  let chain := create_rag_chain r in
  app_state_set "rag_chain" chain.

(** [lifespan] after its [yield]. *)
Definition lifespan_shutdown : M unit := app_state_clear.

Definition read_root : M (list (string * string)) :=
  ret [("message", "Welcome to the Underwriting Assistant API!")].

Definition analyze_application (file : UploadFile) : M (list (string * string)) :=
  if negb (endswith (filename file) ".pdf") then
    raise (HTTPException 400 "Invalid file type. Please upload a PDF.")
  else
    application_text <- lift (load_application_text_from_bytes (contents file)) ;;
    if str_in "Error:" application_text then
      raise (HTTPException 400 application_text)
    else
      found <- app_state_get "rag_chain" ;;
      match found with
      | None => raise (HTTPException 500 "RAG chain not initialized.")
      | Some chain =>
          try_except
            (response <- invoke chain application_text ;;
             ret [("analysis", out_answer response)])
            (fun e => raise (HTTPException 500 "An error occurred during analysis."))
      end.

(** FastAPI at the HTTP boundary: a returned dictionary is a 200, an
    [HTTPException] is its status code with its detail, anything else that
    escapes a handler is the framework's bare 500. *)
Definition respond (r : result (list (string * string))) : http_response :=
  match r with
  | Ok fields => {| status := 200; body := Json fields |}
  | Raise (HTTPException code detail) =>
      {| status := code; body := Json [("detail", detail)] |}
  | Raise (Exception _) => {| status := 500; body := PlainText "Internal Server Error" |}
  end.

Definition route (req : request) : M (list (string * string)) :=
  match req with
  | GetRoot => read_root
  | PostAnalyze file => analyze_application file
  end.

Definition handle (req : request) (s : server) : http_response * server :=
  let (r, s') := route req s in (respond r, s').

Fixpoint serve (reqs : list request) (s : server) : list http_response * server :=
  match reqs with
  | [] => ([], s)
  | req :: rest =>
      let (resp, s1) := handle req s in
      let (resps, s2) := serve rest s1 in
      (resp :: resps, s2)
  end.

Definition client_error (r : http_response) : bool :=
  (400 <=? status r) && (status r <? 500).
End Main.

(** The answers the handlers give by raising an [HTTPException]. *)
Definition error_response (code : nat) (detail : string) : http_response :=
  {| status := code; body := Json [("detail", detail)] |}.

Definition invalid_file_type : http_response :=
  error_response 400 "Invalid file type. Please upload a PDF.".

Definition unreadable_pdf : http_response := error_response 400 could_not_read.

Definition not_initialized : http_response :=
  error_response 500 "RAG chain not initialized.".

Definition analysis_failed : http_response :=
  error_response 500 "An error occurred during analysis.".

Section Paths.
Context {parser : PdfParser} {collab : Collaborators}.

(** The five ways [analyze_application] can end. *)
Inductive analyze_path (file : UploadFile) (s : server) : http_response * server -> Prop :=
| PathWrongName :
    endswith (filename file) ".pdf" = false ->
    analyze_path file s (invalid_file_type, s)
| PathFlagged text :
    endswith (filename file) ".pdf" = true ->
    load_application_text_from_bytes (contents file) = Ok text ->
    str_in "Error:" text = true ->
    analyze_path file s (error_response 400 text, s)
| PathNotInitialized text :
    endswith (filename file) ".pdf" = true ->
    load_application_text_from_bytes (contents file) = Ok text ->
    str_in "Error:" text = false ->
    app_state s !! "rag_chain" = None ->
    analyze_path file s (not_initialized, s)
| PathFailed text chain e s' :
    endswith (filename file) ".pdf" = true ->
    load_application_text_from_bytes (contents file) = Ok text ->
    str_in "Error:" text = false ->
    app_state s !! "rag_chain" = Some chain ->
    invoke chain text s = (Raise e, s') ->
    analyze_path file s (analysis_failed, s')
| PathAnswered text chain out s' :
    endswith (filename file) ".pdf" = true ->
    load_application_text_from_bytes (contents file) = Ok text ->
    str_in "Error:" text = false ->
    app_state s !! "rag_chain" = Some chain ->
    invoke chain text s = (Ok out, s') ->
    analyze_path file s
      ({| status := 200; body := Json [("analysis", out_answer out)] |}, s').
End Paths.

(** ** frontend/app.py *)

(** What the page puts on the screen, in the order of the calls to [st]. *)
Inductive widget : Type :=
| StTitle (text : string)
| StWrite (text : string)
| StFileUploader (label : string)
| StButton (label : string)
| StSpinner (text : string)
| StSubheader (text : string)
| StMarkdown (text : string)
| StError (text : string)
| StWarning (text : string).

(** The file held by [st.file_uploader]: [uploaded_file.name] and
    [uploaded_file.getvalue()]. *)
Record UploadedFile : Type := {
  name : string;
  getvalue : list Byte.byte
}.

(** Exceptions as the page tells them apart: its [except] clause catches
    [requests.exceptions.RequestException] and nothing else. *)
Inductive client_exn : Type :=
| RequestException (msg : string)
| OtherException (msg : string).

(** A [requests] response: [response.status_code], [response.text] and the
    outcome of [response.json()], a JSON object of strings or an
    exception. *)
Record Response : Type := {
  response_status_code : nat;
  response_text : string;
  response_json : client_exn + list (string * string)
}.

(** [requests.post(api_url, files=files, timeout=120)] returns or raises. *)
Inductive post_outcome : Type :=
| Responded (response : Response)
| PostRaised (e : client_exn).

(** [str(n)] for a status code inside an f-string. *)
Definition str_of_nat (n : nat) : string := NilEmpty.string_of_uint (Nat.to_uint n).

(** [d[key]] on a dictionary given as its items. *)
Fixpoint getitem (key : string) (d : list (string * string)) : option string :=
  match d with
  | [] => None
  | (k, v) :: rest => if String.eqb k key then Some v else getitem key rest
  end.

Definition page_head : list widget :=
  [ StTitle "Intelligent Underwriting Assistant 🤖";
    StWrite "Upload a loan application PDF to analyze it against internal guidelines.";
    StFileUploader "Upload Loan Application (PDF)";
    StButton "Analyze Application" ].

(** The body of the [try]: what is shown, and the exception that ended it
    if one did. *)
Definition show_response (outcome : post_outcome) : list widget * option client_exn :=
  match outcome with
  | PostRaised e => ([], Some e)
  | Responded response =>
      if response_status_code response =? 200 then
        match response_json response with
        | inl e => ([], Some e)
        | inr result =>
            match getitem "analysis" result with
            | Some analysis =>
                ([StSubheader "✅ Analysis Complete"; StMarkdown analysis], None)
            | None => ([StSubheader "✅ Analysis Complete"],
                       Some (OtherException "KeyError: 'analysis'"))
            end
        end
      else
        ([StError ("Error from API: " ++ str_of_nat (response_status_code response)
                     ++ " - " ++ response_text response)], None)
  end.

(** [try: ... except requests.exceptions.RequestException as e: st.error(...)] *)
Definition catch_request_exception (shown : list widget * option client_exn)
  : list widget * option client_exn :=
  match shown with
  | (widgets, Some (RequestException msg)) =>
      ((widgets ++ [StError ("Could not connect to the analysis service. Please ensure the backend is running. Details: " ++ msg)])%list,
       None)
  | _ => shown
  end.

Section Frontend.
(** The network and the service behind [api_url], with a state [N] of their
    own: the request carries the name and the bytes of the file. *)
Context {N : Type}.
Variable post : string -> list Byte.byte -> N -> post_outcome * N.

(** One run of the script: the uploader holds [uploaded_file], the button
    was pressed or not.  The answer is what is on the screen, the exception
    that stopped the script if one escaped, and the state of the network. *)
Definition run_page (uploaded_file : option UploadedFile) (clicked : bool) (n : N)
  : list widget * option client_exn * N :=
  if clicked then
    match uploaded_file with
    | Some f =>
        let (outcome, n') := post (name f) (getvalue f) n in
        let (shown, escaped) := catch_request_exception (show_response outcome) in
        ((page_head ++ StSpinner "Analyzing document... This may take a moment." :: shown)%list,
         escaped, n')
    | None =>
        ((page_head ++ [StWarning "Please upload a PDF file to analyze."])%list, None, n)
    end
  else (page_head, None, n).
End Frontend.

(** The upload as the handler of [/analyze] receives it from the page. *)
Definition sent (f : UploadedFile) : UploadFile :=
  {| filename := name f; contents := getvalue f |}.

Definition spinner : widget := StSpinner "Analyzing document... This may take a moment.".

Section Wire.
Context {parser : PdfParser} {collab : Collaborators}.
(** How the framework writes a body on the wire, and what [response.json()]
    raises on a body that is no JSON. *)
Variable dumps : payload -> string.
Variable decode_error : client_exn.

Definition to_response (r : http_response) : Response :=
  {| response_status_code := status r;
     response_text := dumps (body r);
     response_json := match body r with
                      | Json fields => inr fields
                      | PlainText _ => inl decode_error
                      end |}.

(** The page talking to this backend: the multipart field [file] carries
    the name and the bytes, the handler of [/analyze] answers. *)
Definition post_to_backend (file_name : string) (file_bytes : list Byte.byte) (s : server)
  : post_outcome * server :=
  let (r, s') := handle (PostAnalyze {| filename := file_name; contents := file_bytes |}) s in
  (Responded (to_response r), s').
End Wire.

(** ** Test doubles for the collaborators *)

Module Stub.
(** A parser double: the upload is plain text, a form feed ends a page, and
    an empty upload is refused the way PyPDF2 refuses an empty stream. *)
Fixpoint split_pages (bs : list Byte.byte) (current : string) : list string :=
  match bs with
  | [] => [current]
  | b :: rest =>
      if Byte.eqb b Byte.x0c then current :: split_pages rest ""
      else split_pages rest (snoc current (ascii_of_byte b))
  end.

Definition parser : PdfParser := {|
  page := string;
  PdfReader := fun bs =>
    match bs with
    | [] => Raise (Exception "EmptyFileError: Cannot read an empty file")
    | _ :: _ => Ok (split_pages bs "")
    end;
  extract_text := fun p => Ok p
|}.

Definition distance (a b : nat) : nat := (a - b) + (b - a).

Definition guidelines : string :=
  "Debt-to-income ratio must not exceed 43 percent." ++ nl ++ nl ++
  "Applicants need a credit score of at least 620.".

(** Collaborators that answer: a vector is the length of the text, the
    world counts the requests served. *)
Definition online : Collaborators := {|
  world := nat;
  vec := nat;
  base_dir := "/app";
  load_text := fun path w => (Ok guidelines, w);
  embed := fun text w => (Ok (String.length text), S w);
  generate := fun prompt w => (Ok "**Summary:** ok. **Flagged Risks:** No risks flagged.", S w);
  more_similar := fun q a b => distance q a <? distance q b
|}.

(** The same, with the generation model unreachable. *)
Definition offline : Collaborators := {|
  world := nat;
  vec := nat;
  base_dir := "/app";
  load_text := fun path w => (Ok guidelines, w);
  embed := fun text w => (Ok (String.length text), S w);
  generate := fun prompt w =>
    (Raise (Exception "ConnectionError: [Errno 111] Connection refused"), w);
  more_similar := fun q a b => distance q a <? distance q b
|}.

Definition boot {c : Collaborators} (w : world) : server :=
  {| app_state := ∅; outside := w; calls := [] |}.

(** The process once [lifespan] has reached its [yield]. *)
Definition ready_online : server := snd (@lifespan_startup online (@boot online 0)).
Definition ready_offline : server := snd (@lifespan_startup offline (@boot offline 0)).

(** The chain start-up stores when the generation model is unreachable:
    the guidelines fit into one chunk. *)
Definition offline_chain : @rag_chain offline :=
  @create_rag_chain offline
    {| vector_db := @number_chunks offline 0 [(guidelines, String.length guidelines)];
       search_k := 3 |}.

(** A retriever over three chunks, keeping the two nearest. *)
Definition small_retriever : @retriever online :=
  {| vector_db := @number_chunks online 0
                    [("short", 5); ("a longer chunk", 14); ("medium one", 10)];
     search_k := 2 |}.

Definition upload (name text : string) : UploadFile :=
  {| filename := name; contents := list_byte_of_string text |}.

(** A two-page application, and one whose text quotes an error message. *)
Definition two_pages : UploadFile :=
  upload "loan.pdf" ("Applicant: A. Borrower. " ++ String "012"%char "Income: 5000 per month.").
Definition quoting_error : UploadFile :=
  upload "loan.pdf" "Applicant notes. Error: previous filing was rejected.".
(** Two pages without any text, as a scan has them. *)
Definition blank_scan : UploadFile :=
  upload "scan.pdf" (String "012"%char "").
End Stub.


(** * Properties *)

(** ** Strings *)

Lemma append_assoc (a b c : string) : (a ++ b) ++ c = a ++ (b ++ c).
Proof. induction a as [|ch a IH]; simpl; [reflexivity | now rewrite IH]. Qed.

Lemma append_empty_r (a : string) : a ++ "" = a.
Proof. induction a as [|ch a IH]; simpl; [reflexivity | now rewrite IH]. Qed.

Lemma prefix_append (t s : string) :
  String.prefix t s = true -> exists post, s = t ++ post.
Proof.
  revert t; induction s as [|c s IH]; intros [|d t] H; simpl in *.
  - now exists "".
  - discriminate.
  - now exists (String c s).
  - destruct (ascii_dec d c) as [->|]; [|discriminate].
    destruct (IH _ H) as [post ->]. now exists post.
Qed.

Lemma append_prefix (t post : string) : String.prefix t (t ++ post) = true.
Proof.
  induction t as [|c t IH]; simpl.
  - now destruct post.
  - destruct (ascii_dec c c); [exact IH | contradiction].
Qed.

(** Python's [in] decides [substring_of]. *)
Lemma str_in_sound (t s : string) : str_in t s = true -> substring_of t s.
Proof.
  induction s as [|c s IH]; cbn [str_in].
  - destruct (String.prefix t "") eqn:E; [|discriminate].
    intros _. destruct (prefix_append _ _ E) as [post Hp]. now exists "", post.
  - destruct (String.prefix t (String c s)) eqn:E.
    + intros _. destruct (prefix_append _ _ E) as [post Hp]. now exists "", post.
    + intros H. destruct (IH H) as (pre & post & ->).
      now exists (String c pre), post.
Qed.

Lemma str_in_complete (t s : string) : substring_of t s -> str_in t s = true.
Proof.
  intros (pre & post & ->). induction pre as [|c pre IH].
  - change ("" ++ t ++ post) with (t ++ post).
    destruct (t ++ post) eqn:E; cbn [str_in]; rewrite <- E, append_prefix; reflexivity.
  - change (String c pre ++ t ++ post) with (String c (pre ++ t ++ post)).
    cbn [str_in]. rewrite IH. now destruct (String.prefix t _).
Qed.

Lemma substring_of_append_r (t a b : string) : substring_of t b -> substring_of t (a ++ b).
Proof.
  intros (p & q & ->). exists (a ++ p), q. now rewrite !append_assoc.
Qed.

Example endswith_pdf : endswith "loan.pdf" ".pdf" = true.
Proof. reflexivity. Qed.

Example endswith_txt : endswith "loan.pdf.txt" ".pdf" = false.
Proof. reflexivity. Qed.

Example endswith_short : endswith "pdf" ".pdf" = false.
Proof. reflexivity. Qed.

Example str_in_sentinel : str_in "Error:" could_not_read = true.
Proof. reflexivity. Qed.

Example str_in_absent : str_in "Error:" "No errors: none" = false.
Proof. reflexivity. Qed.

Example format_two_fields :
  format "a {x} b {y}" (<["x" := "1"]> (<["y" := "2"]> ∅)) = Ok "a 1 b 2".
Proof. reflexivity. Qed.

Example format_missing_field :
  format "a {x}" ∅ = Raise (Exception "KeyError: x").
Proof. reflexivity. Qed.

(** ** PDF text extraction *)

Section ExtractionFacts.
Context {parser : PdfParser}.

Lemma extract_pages_yield (pages : list page) (texts : list string) :
  pages_yield pages texts ->
  forall acc, extract_pages pages acc = Ok (acc ++ page_concat texts).
Proof.
  induction 1 as [|p t pages texts Hp _ IH]; intros acc; simpl.
  - now rewrite append_empty_r.
  - rewrite Hp. simpl. rewrite IH. now rewrite append_assoc.
Qed.

(** The extraction always comes back with a string. *)
Lemma load_application_text_returns (pdf_bytes : list Byte.byte) :
  exists text, load_application_text_from_bytes pdf_bytes = Ok text.
Proof.
  unfold load_application_text_from_bytes.
  destruct (PdfReader pdf_bytes) as [pages|e]; simpl; [|eauto].
  destruct (extract_pages pages "") as [text|e]; simpl; [|eauto].
  destruct (str_falsy text); eauto.
Qed.

End ExtractionFacts.

(** C10: the extraction is total.  On every byte string it returns a string
    and raises nothing: when the reader or a page raises, the exception is
    caught and the fixed error string is returned in its place. *)
Theorem load_application_text_total
  (parser : PdfParser) (pdf_bytes : list Byte.byte) :
  (exists text, load_application_text_from_bytes pdf_bytes = Ok text) /\
  (forall e, PdfReader pdf_bytes = Raise e ->
             load_application_text_from_bytes pdf_bytes = Ok could_not_read) /\
  (forall pages e, PdfReader pdf_bytes = Ok pages ->
                   extract_pages pages "" = Raise e ->
                   load_application_text_from_bytes pdf_bytes = Ok could_not_read).
Proof.
  split; [apply load_application_text_returns|].
  unfold load_application_text_from_bytes. split.
  - intros e ->. reflexivity.
  - intros pages e -> Hp. simpl. rewrite Hp. reflexivity.
Qed.

(** C7, as stated, fails on a document whose pages carry no text: the
    concatenation is empty and the error string is returned instead. *)
Lemma blank_scan_not_concatenated :
  ~ @returns_page_concat Stub.parser (contents Stub.blank_scan).
Proof.
  intros H. specialize (H [""; ""] [""; ""] eq_refl).
  assert (Hy : @pages_yield Stub.parser [""; ""] [""; ""])
    by (repeat constructor).
  specialize (H Hy). vm_compute in H. discriminate.
Qed.

(** C7, amended: when every page gives its text and the texts are not all
    empty, the extraction returns the texts concatenated in page order with
    nothing between them; when all are empty it returns the error string. *)
Theorem load_application_text_concatenates
  (parser : PdfParser) (pdf_bytes : list Byte.byte)
  (pages : list page) (texts : list string) :
  PdfReader pdf_bytes = Ok pages ->
  pages_yield pages texts ->
  (page_concat texts <> "" ->
   load_application_text_from_bytes pdf_bytes = Ok (page_concat texts)) /\
  (page_concat texts = "" ->
   load_application_text_from_bytes pdf_bytes = Ok could_not_read).
Proof.
  intros Hr Hy. unfold load_application_text_from_bytes.
  rewrite Hr. simpl. rewrite (extract_pages_yield _ _ Hy). simpl.
  destruct (page_concat texts) eqn:E; simpl; split; congruence.
Qed.

Lemma load_application_text_concatenates_witness :
  @load_application_text_from_bytes Stub.parser (contents Stub.two_pages)
  = Ok ("Applicant: A. Borrower. " ++ "Income: 5000 per month.").
Proof.
  apply (load_application_text_concatenates Stub.parser (contents Stub.two_pages)
           ["Applicant: A. Borrower. "; "Income: 5000 per month."]
           ["Applicant: A. Borrower. "; "Income: 5000 per month."]).
  - reflexivity.
  - repeat constructor.
  - discriminate.
Defined.

(** ** The prompt *)

(** [system_prompt] cut at its two replacement fields; both section labels
    stand after the second one. *)
Lemma system_prompt_pieces :
  exists head mid tail,
    parse_format system_prompt "" None
    = Ok [Literal head; Field "context"; Literal mid; Field "input"; Literal tail] /\
    str_in "Summary" tail = true /\
    str_in "Flagged Risks" tail = true.
Proof.
  do 3 eexists. split; [vm_compute; reflexivity|].
  split; vm_compute; reflexivity.
Qed.

Lemma compose_shape (context_chunks : list string) (application_text : string) :
  exists head mid tail,
    compose context_chunks application_text
    = Ok (head ++ join document_separator context_chunks ++ mid
               ++ application_text ++ tail) /\
    substring_of "Summary" tail /\
    substring_of "Flagged Risks" tail.
Proof.
  destruct system_prompt_pieces as (head & mid & tail & Hp & Hs & Hf).
  exists head, mid, tail. split; [|split; now apply str_in_sound].
  unfold compose, fill_prompt, format. rewrite Hp. cbn [Res.bind render].
  rewrite lookup_insert_eq.
  rewrite lookup_insert_ne by discriminate. rewrite lookup_insert_eq.
  cbn [Res.bind]. now rewrite append_empty_r.
Qed.

(** C3: for every sequence of context chunks and every application text the
    composed prompt exists and contains the labels "Summary" and "Flagged
    Risks" of the template and the whole application text, unchanged. *)
Theorem compose_contains_labels_and_application
  (context_chunks : list string) (application_text : string) :
  exists prompt,
    compose context_chunks application_text = Ok prompt /\
    substring_of "Summary" prompt /\
    substring_of "Flagged Risks" prompt /\
    substring_of application_text prompt.
Proof.
  destruct (compose_shape context_chunks application_text)
    as (head & mid & tail & -> & Hs & Hf).
  eexists. split; [reflexivity|]. repeat split.
  - do 4 apply substring_of_append_r. exact Hs.
  - do 4 apply substring_of_append_r. exact Hf.
  - exists (head ++ join document_separator context_chunks ++ mid), tail.
    now rewrite !append_assoc.
Qed.

(** The chain built by [create_rag_chain] fills exactly this template. *)
Lemma create_rag_chain_prompt {collab : Collaborators} (r : retriever) chunks text :
  fill_prompt (chain_prompt (create_rag_chain r)) chunks text = compose chunks text.
Proof. reflexivity. Qed.

(** ** The text splitter *)

Lemma join_empty_cons (c : string) (cs : list string) :
  join "" (c :: cs) = c ++ join "" cs.
Proof. destruct cs; simpl; [now rewrite append_empty_r | reflexivity]. Qed.

Lemma join_empty_app (a b : list string) :
  join "" (a ++ b) = join "" a ++ join "" b.
Proof.
  induction a as [|c a IH]; [reflexivity|].
  change ((c :: a) ++ b)%list with (c :: (a ++ b)%list).
  now rewrite !join_empty_cons, IH, append_assoc.
Qed.






Section SplitterFacts.
Variables chunk_size chunk_overlap : nat.





End SplitterFacts.

Example split_text_at_spaces :
  split_text 10 2 "aaaa bbbb cccc dddd" = ["aaaa bbbb"; "cccc dddd"].
Proof. reflexivity. Qed.

Example split_text_at_paragraphs :
  split_text 10 2 ("para one" ++ nl ++ nl ++ "para two is longer" ++ nl ++ "line")
  = ["para one"; "para two"; "is longer"; "line"].
Proof. reflexivity. Qed.

Example split_text_empty : split_text 1000 200 "" = [].
Proof. reflexivity. Qed.

Example split_text_white_space_lost :
  split_text 1000 200 ("  Income: 5000  " ++ nl) = ["Income: 5000"].
Proof. reflexivity. Qed.

(** A document of 1201 characters, two runs of letters with one space
    between them: the cut is at the space, and the space is in no chunk. *)
Example split_text_long_document :
  split_text 1000 200 (repeat_string 600 "a" ++ " " ++ repeat_string 600 "b")
  = [repeat_string 600 "a"; repeat_string 600 "b"].
Proof. vm_compute. reflexivity. Qed.

(** Characters are counted, not bytes: 600 two-byte letters are one chunk. *)
Example split_text_counts_characters :
  split_text 1000 200 (repeat_string 600 e_acute) = [repeat_string 600 e_acute].
Proof. vm_compute. reflexivity. Qed.

Lemma no_space_in_letters (l : list string) :
  List.Forall (fun c => c = "a" \/ c = "b") l -> str_in " " (join "" l) = false.
Proof.
  induction 1 as [|c l [-> | ->] _ IH]; [reflexivity| |];
    rewrite join_empty_cons; cbn; exact IH.
Qed.

(** The long document above is not put together again by its chunks,
    however many leading characters of the second chunk are taken for the
    overlap: the space between the two runs is gone. *)
Lemma long_document_not_reconstructed :
  ~ chunker_reconstructs (repeat_string 600 "a" ++ " " ++ repeat_string 600 "b").
Proof.
  intros [overlaps Hg]. rewrite split_text_long_document in Hg.
  assert (Hspace : str_in " " (glue overlaps [repeat_string 600 "a"; repeat_string 600 "b"])
                   = false).
  { unfold glue. apply no_space_in_letters. apply List.Forall_app. split.
    - apply List.Forall_forall. intros c Hc.
      assert (Hb : forallb (fun c => String.eqb c "a")
                     (utf8_chars (repeat_string 600 "a")) = true)
        by (vm_compute; reflexivity).
      rewrite List.forallb_forall in Hb. left. now apply String.eqb_eq, Hb.
    - assert (Hb : List.Forall (fun c => c = "a" \/ c = "b")
                     (utf8_chars (repeat_string 600 "b"))).
      { apply List.Forall_forall. intros c Hc.
        assert (Hb : forallb (fun c => String.eqb c "b")
                       (utf8_chars (repeat_string 600 "b")) = true)
          by (vm_compute; reflexivity).
        rewrite List.forallb_forall in Hb. right. now apply String.eqb_eq, Hb. }
      cbn [glue_rest]. destruct overlaps as [|n overlaps]; rewrite app_nil_r.
      + exact Hb.
      + rewrite <- (firstn_skipn n) in Hb. now apply List.Forall_app in Hb. }
  rewrite Hg in Hspace. vm_compute in Hspace. discriminate Hspace.
Qed.




(** ** The retriever *)

Section RetrieverFacts.
Context {collab : Collaborators}.

Lemma create_vector_db_k (file_path : string) (s s' : server) (r : retriever) :
  create_vector_db file_path s = (Ok r, s') -> search_k r = 3.
Proof.
  unfold create_vector_db, bind, ret.
  destruct (external (load_text file_path) s) as [[document|e] s1]; [|discriminate].
  destruct (from_documents _ s1) as [[db|e] s2]; [|discriminate].
  intros [= <- _]. reflexivity.
Qed.

Lemma search_length (index : list Chunk) (q : vec) (k : nat) :
  length (search index q k) <= k.
Proof. unfold search. rewrite length_firstn. lia. Qed.

(** The answer of [retrieve] depends on the state only through the answer
    of the embedding model. *)
Lemma retrieve_result (r : retriever) (query_text : string) (s : server) :
  fst (retrieve r query_text s)
  = match fst (embed query_text (outside s)) with
    | Ok v => Ok (map chunk_text (search (vector_db r) v (search_k r)))
    | Raise e => Raise e
    end.
Proof.
  unfold retrieve, embed_text, bind, record_call, external, ret. simpl.
  destruct (embed query_text (outside s)) as [[v|e] w]; reflexivity.
Qed.
End RetrieverFacts.

(** Ties keep their insertion order: "short" and "brief" are equally near. *)
Example search_stable :
  map chunk_text
      (@search Stub.online
         (@number_chunks Stub.online 0 [("short", 5); ("a longer chunk", 14); ("brief", 5)])
         6 2)
  = ["short"; "brief"].
Proof. reflexivity. Qed.

(** C2, as stated, fails: no call of [create_vector_db] gives a retriever
    with a cutoff other than 3. *)
Lemma retrieval_cutoff_not_configurable : ~ retrieval_cutoff_configurable.
Proof.
  intros (collab & file_path & s & s' & r & Hr & Hk).
  apply Hk. exact (create_vector_db_k _ _ _ _ Hr).
Qed.

(** C2, amended: the retrieval cutoff is the constant 3 inside
    [create_vector_db], whose only argument is the path of the guidelines:
    every retriever it returns has [k = 3]. *)
Theorem create_vector_db_cutoff_fixed
  (collab : Collaborators) (file_path : string) (s s' : server) (r : retriever) :
  create_vector_db file_path s = (Ok r, s') -> search_k r = 3.
Proof. apply create_vector_db_k. Qed.

Lemma create_vector_db_cutoff_fixed_witness :
  exists r s',
    @create_vector_db Stub.online "/app/data/guidelines.txt" (@Stub.boot Stub.online 0)
    = (Ok r, s') /\ search_k r = 3.
Proof.
  destruct (@create_vector_db Stub.online "/app/data/guidelines.txt" (@Stub.boot Stub.online 0))
    as [[r|e] s'] eqn:E.
  - exists r, s'. split; [reflexivity|].
    exact (create_vector_db_cutoff_fixed Stub.online _ _ _ _ E).
  - vm_compute in E. discriminate E.
Defined.

(** C8: with an embedding model that answers a text the same way every time,
    [retrieve] on the same retriever and query gives the same ordered result
    the second time as the first, and in any two states of the server. *)
Theorem retrieve_idempotent
  (collab : Collaborators) (r : retriever) (query_text : string) :
  (forall text w w', fst (embed text w) = fst (embed text w')) ->
  (forall s, fst (retrieve r query_text (snd (retrieve r query_text s)))
             = fst (retrieve r query_text s)) /\
  (forall s1 s2, fst (retrieve r query_text s1) = fst (retrieve r query_text s2)).
Proof.
  intros Hdet.
  assert (H : forall s1 s2,
             fst (retrieve r query_text s1) = fst (retrieve r query_text s2)).
  { intros s1 s2. rewrite !retrieve_result.
    now rewrite (Hdet query_text (outside s1) (outside s2)). }
  split; [intros s; apply H | exact H].
Qed.

Lemma online_embed_deterministic (text : string) (w w' : @world Stub.online) :
  fst (@embed Stub.online text w) = fst (@embed Stub.online text w').
Proof. reflexivity. Qed.

Lemma retrieve_idempotent_witness :
  fst (@retrieve Stub.online Stub.small_retriever "nine char"
         (snd (@retrieve Stub.online Stub.small_retriever "nine char" Stub.ready_online)))
  = Ok ["medium one"; "short"].
Proof.
  rewrite (proj1 (retrieve_idempotent Stub.online Stub.small_retriever "nine char"
                    online_embed_deterministic)).
  vm_compute. reflexivity.
Defined.

(** ** The request handlers *)

Section ReadOnly.
Context {collab : Collaborators}.

Lemma read_only_ret {A} (a : A) : read_only (ret a).
Proof. intros s. reflexivity. Qed.

Lemma read_only_raise {A} (e : exn) : read_only (@raise _ A e).
Proof. intros s. reflexivity. Qed.

Lemma read_only_lift {A} (r : result A) : read_only (lift r).
Proof. intros s. reflexivity. Qed.

Lemma read_only_external {A} (f : world -> result A * world) : read_only (external f).
Proof. intros s. unfold external. now destruct (f (outside s)). Qed.

Lemma read_only_record_call (c : call) : read_only (record_call c).
Proof. intros s. reflexivity. Qed.

Lemma read_only_app_state_get (key : string) : read_only (app_state_get key).
Proof. intros s. reflexivity. Qed.

Lemma read_only_bind {A B} (m : M A) (k : A -> M B) :
  read_only m -> (forall a, read_only (k a)) -> read_only (bind m k).
Proof.
  intros Hm Hk s. unfold bind. specialize (Hm s).
  destruct (m s) as [[a|e] s1]; simpl in *; [|exact Hm].
  now rewrite Hk.
Qed.

Lemma read_only_try_except {A} (body : M A) (handler : exn -> M A) :
  read_only body -> (forall e, read_only (handler e)) -> read_only (try_except body handler).
Proof.
  intros Hb Hh s. unfold try_except. specialize (Hb s).
  destruct (body s) as [[a|e] s1]; simpl in *; [exact Hb|].
  now rewrite Hh.
Qed.
End ReadOnly.

Create HintDb read_only.
#[local] Hint Resolve read_only_ret read_only_raise read_only_lift read_only_external
  read_only_record_call read_only_app_state_get : read_only.

Ltac read_only_step :=
  first [ apply read_only_bind; [|intros ?]
        | apply read_only_try_except; [|intros ?]
        | solve [auto with read_only] ].

Section HandlerFacts.
Context {parser : PdfParser} {collab : Collaborators}.

Lemma read_only_retrieve (r : retriever) (query_text : string) :
  read_only (retrieve r query_text).
Proof. unfold retrieve, embed_text. repeat read_only_step. Qed.

Lemma read_only_invoke (chain : rag_chain) (input : string) :
  read_only (invoke chain input).
Proof.
  unfold invoke.
  apply read_only_bind; [apply read_only_retrieve|intros context].
  repeat read_only_step.
Qed.

Lemma read_only_analyze_application (file : UploadFile) :
  read_only (analyze_application file).
Proof.
  unfold analyze_application.
  destruct (negb _); [auto with read_only|].
  apply read_only_bind; [auto with read_only|intros text].
  destruct (str_in _ _); [auto with read_only|].
  apply read_only_bind; [auto with read_only|intros [chain|]]; [|auto with read_only].
  apply read_only_try_except; [|auto with read_only].
  apply read_only_bind; [apply read_only_invoke|auto with read_only].
Qed.

Lemma read_only_route (req : request) : read_only (route req).
Proof.
  destruct req; simpl; [apply read_only_ret | apply read_only_analyze_application].
Qed.

Lemma handle_app_state (req : request) (s : server) :
  app_state (snd (handle req s)) = app_state s.
Proof.
  unfold handle. pose proof (read_only_route req s) as H.
  now destruct (route req s).
Qed.

Lemma serve_app_state (reqs : list request) (s : server) :
  app_state (snd (serve reqs s)) = app_state s.
Proof.
  revert s. induction reqs as [|req reqs IH]; intros s; simpl; [reflexivity|].
  pose proof (handle_app_state req s) as H.
  destruct (handle req s) as [resp s1]. specialize (IH s1).
  destruct (serve reqs s1) as [resps s2]. simpl in *. congruence.
Qed.

(** A failure of the embedding model is a failure of the chain. *)
Lemma invoke_embedding_failure (chain : rag_chain) (input : string) (s : server)
    (e : exn) (w : world) :
  embed input (outside s) = (Raise e, w) ->
  fst (invoke chain input s) = Raise e.
Proof.
  intros H. unfold invoke, retrieve, embed_text, bind, record_call, external.
  simpl. rewrite H. reflexivity.
Qed.

(** So is a failure of the generation model, whatever was retrieved. *)
Lemma invoke_generation_failure (chain : rag_chain) (input : string) (s s1 : server)
    (context : list string) (prompt : string) (e : exn) (w : world) :
  retrieve (chain_retriever chain) input s = (Ok context, s1) ->
  fill_prompt (chain_prompt chain) context input = Ok prompt ->
  generate (to_string prompt) (outside s1) = (Raise e, w) ->
  fst (invoke chain input s) = Raise e.
Proof.
  intros Hr Hp Hg. unfold invoke, bind. rewrite Hr.
  unfold lift. rewrite Hp. unfold record_call, external. simpl.
  rewrite Hg. reflexivity.
Qed.

(** Start-up, when it succeeds, stores a chain under "rag_chain". *)
Lemma lifespan_startup_stores (s s1 : server) :
  lifespan_startup s = (Ok tt, s1) ->
  exists chain, app_state s1 !! "rag_chain" = Some chain.
Proof.
  unfold lifespan_startup, bind.
  destruct (create_vector_db guidelines_path s) as [[r|e] s0]; [|discriminate].
  unfold app_state_set. intros [= <-]. simpl.
  exists (create_rag_chain r). apply lookup_insert_eq.
Qed.

(** What [analyze_application] does once the upload has passed the two
    checks that answer 400. *)
Lemma analyze_application_past_checks (file : UploadFile) (text : string) (s : server) :
  endswith (filename file) ".pdf" = true ->
  load_application_text_from_bytes (contents file) = Ok text ->
  str_in "Error:" text = false ->
  analyze_application file s
  = match app_state s !! "rag_chain" with
    | None => (Raise (HTTPException 500 "RAG chain not initialized."), s)
    | Some chain =>
        try_except
          (response <- invoke chain text ;; ret [("analysis", out_answer response)])
          (fun e => raise (HTTPException 500 "An error occurred during analysis.")) s
    end.
Proof.
  intros Hname Htext Hin. unfold analyze_application.
  rewrite Hname. simpl. unfold bind at 1, lift. rewrite Htext, Hin.
  unfold bind at 1, app_state_get. now destruct (app_state s !! "rag_chain").
Qed.

(** A request is answered 400 exactly when the name is wrong or the string
    returned by the extraction contains "Error:". *)
Lemma analyze_application_400 (file : UploadFile) (s : server) :
  client_error (fst (handle (PostAnalyze file) s)) = true <->
  endswith (filename file) ".pdf" = false \/
  exists text, load_application_text_from_bytes (contents file) = Ok text /\
               str_in "Error:" text = true.
Proof.
  destruct (endswith (filename file) ".pdf") eqn:Hname.
  - destruct (load_application_text_returns (contents file)) as [text Htext].
    destruct (str_in "Error:" text) eqn:Hin.
    + split; [right; eauto|intros _].
      unfold handle, route, analyze_application. rewrite Hname. simpl.
      unfold bind, lift. rewrite Htext, Hin. reflexivity.
    + split.
      * unfold handle, route.
        rewrite (analyze_application_past_checks file text s Hname Htext Hin).
        destruct (app_state s !! "rag_chain") as [chain|]; [|discriminate].
        unfold try_except.
        destruct (bind _ _ s) as [[fields|e] s1]; discriminate.
      * intros [?|(text' & Htext' & Hin')]; [discriminate|]. congruence.
  - split; [auto|intros _].
    unfold handle, route, analyze_application. rewrite Hname. reflexivity.
Qed.

(** An upload the extraction could not read is answered 400. *)
Lemma unreadable_is_400 (file : UploadFile) (s : server) :
  load_application_text_from_bytes (contents file) = Ok could_not_read ->
  client_error (fst (handle (PostAnalyze file) s)) = true.
Proof.
  intros H. apply analyze_application_400.
  destruct (endswith (filename file) ".pdf"); [right|now left].
  exists could_not_read. split; [exact H|reflexivity].
Qed.

(** Before start-up has stored the chain, an upload that passes both
    checks is answered 500, and neither the state nor the list of calls to
    the model server moves. *)
Lemma not_ready_is_500 (file : UploadFile) (text : string) (s : server) :
  endswith (filename file) ".pdf" = true ->
  load_application_text_from_bytes (contents file) = Ok text ->
  str_in "Error:" text = false ->
  app_state s !! "rag_chain" = None ->
  handle (PostAnalyze file) s
  = ({| status := 500; body := Json [("detail", "RAG chain not initialized.")] |}, s).
Proof.
  intros Hname Htext Hin Hnone. unfold handle, route.
  rewrite (analyze_application_past_checks file text s Hname Htext Hin), Hnone.
  reflexivity.
Qed.

(** No exception other than an [HTTPException] leaves a handler. *)
Lemma route_raises_http_only (req : request) (s : server) (msg : string) :
  fst (route req s) <> Raise (Exception msg).
Proof.
  destruct req as [|file]; simpl; [discriminate|].
  unfold analyze_application.
  destruct (negb _); [discriminate|].
  unfold bind at 1, lift.
  destruct (load_application_text_returns (contents file)) as [text ->].
  destruct (str_in _ _); [discriminate|].
  unfold bind at 1, app_state_get.
  destruct (app_state s !! "rag_chain"); [|discriminate].
  unfold try_except. destruct (bind _ _ s) as [[fields|e] s1]; discriminate.
Qed.
End HandlerFacts.

(** C9: no request handler writes to [app_state].  Whatever the request and
    the state it meets, the dictionary, and with it the stored chain and
    the index inside its retriever, is the same after the request as
    before; so it is after any sequence of requests; and the chain that a
    successful start-up stored is still the stored chain after them. *)
Theorem requests_leave_app_state (parser : PdfParser) (collab : Collaborators) :
  (forall (req : request) (s : server),
      app_state (snd (handle req s)) = app_state s) /\
  (forall (reqs : list request) (s : server),
      app_state (snd (serve reqs s)) = app_state s) /\
  (forall (s s1 : server),
      lifespan_startup s = (Ok tt, s1) ->
      exists chain,
        app_state s1 !! "rag_chain" = Some chain /\
        forall reqs, app_state (snd (serve reqs s1)) !! "rag_chain" = Some chain).
Proof.
  split; [apply handle_app_state|]. split; [apply serve_app_state|].
  intros s s1 Hs. destruct (lifespan_startup_stores s s1 Hs) as [chain Hc].
  exists chain. split; [exact Hc|]. intros reqs. now rewrite serve_app_state.
Qed.

(** C5: when the chain raises during the analysis of an upload that passed
    the checks, whatever the exception and whichever stage raised it, the
    answer is a 500 whose body is the fixed message; nothing of the
    exception is in it. *)
Theorem analysis_failure_is_generic_500
  (parser : PdfParser) (collab : Collaborators)
  (file : UploadFile) (text : string) (chain : rag_chain) (e : exn) (s s' : server) :
  endswith (filename file) ".pdf" = true ->
  load_application_text_from_bytes (contents file) = Ok text ->
  str_in "Error:" text = false ->
  app_state s !! "rag_chain" = Some chain ->
  invoke chain text s = (Raise e, s') ->
  handle (PostAnalyze file) s
  = ({| status := 500; body := Json [("detail", "An error occurred during analysis.")] |}, s').
Proof.
  intros Hname Htext Hin Hchain Hraise. unfold handle, route.
  rewrite (analyze_application_past_checks file text s Hname Htext Hin), Hchain.
  unfold try_except, bind. rewrite Hraise. reflexivity.
Qed.

Lemma analysis_failure_is_generic_500_witness :
  @handle Stub.parser Stub.offline (PostAnalyze Stub.two_pages) Stub.ready_offline
  = ({| status := 500; body := Json [("detail", "An error occurred during analysis.")] |},
     snd (@invoke Stub.offline Stub.offline_chain
            "Applicant: A. Borrower. Income: 5000 per month." Stub.ready_offline)).
Proof.
  apply (analysis_failure_is_generic_500 Stub.parser Stub.offline Stub.two_pages
           "Applicant: A. Borrower. Income: 5000 per month." Stub.offline_chain
           (Exception "ConnectionError: [Errno 111] Connection refused"));
    vm_compute; reflexivity.
Defined.

(** C1 at a readable upload: the reader raises nothing, the text of the
    page is returned as it is, and the request is answered 400 with that
    text as the detail, although start-up has stored the chain. *)
Lemma readable_upload_answered_400 :
  @load_application_text_from_bytes Stub.parser (contents Stub.quoting_error)
  = Ok "Applicant notes. Error: previous filing was rejected." /\
  fst (@handle Stub.parser Stub.online (PostAnalyze Stub.quoting_error) Stub.ready_online)
  = {| status := 400;
       body := Json [("detail", "Applicant notes. Error: previous filing was rejected.")] |}.
Proof. split; vm_compute; reflexivity. Qed.

(** C6 at the same upload, before start-up: the dictionary is empty and the
    request is answered 400, not 500. *)
Lemma readable_upload_before_startup_answered_400 :
  @load_application_text_from_bytes Stub.parser (contents Stub.quoting_error)
  = Ok "Applicant notes. Error: previous filing was rejected." /\
  (@Stub.boot Stub.online 0).(app_state) !! "rag_chain" = None /\
  @handle Stub.parser Stub.online (PostAnalyze Stub.quoting_error) (@Stub.boot Stub.online 0)
  = ({| status := 400;
        body := Json [("detail", "Applicant notes. Error: previous filing was rejected.")] |},
     @Stub.boot Stub.online 0).
Proof. repeat split; vm_compute; reflexivity. Qed.

(** * Further properties of the code *)

(** ** The file-name check *)

Lemma length_append (a b : string) :
  String.length (a ++ b) = String.length a + String.length b.
Proof. induction a as [|c a IH]; simpl; [reflexivity | now rewrite IH]. Qed.

Lemma substring_whole (s : string) : String.substring 0 (String.length s) s = s.
Proof. induction s as [|c s IH]; simpl; [reflexivity | now rewrite IH]. Qed.

Lemma substring_skip_prefix (pre s : string) (m : nat) :
  String.substring (String.length pre) m (pre ++ s) = String.substring 0 m s.
Proof.
  induction pre as [|c pre IH]; simpl; [reflexivity|exact IH].
Qed.

Lemma substring_split (s : string) (k : nat) :
  k <= String.length s ->
  s = String.substring 0 k s ++ String.substring k (String.length s - k) s.
Proof.
  revert k. induction s as [|c s IH]; intros [|k] H; simpl in *; try reflexivity; try lia.
  - now rewrite substring_whole.
  - rewrite <- IH by lia. reflexivity.
Qed.

(** [s.endswith(suffix)] holds exactly of the strings that end in [suffix]. *)
Lemma endswith_spec (s suffix : string) :
  endswith s suffix = true <-> exists stem, s = stem ++ suffix.
Proof.
  unfold endswith. split.
  - intros H. apply andb_true_iff in H as [Hle Heq].
    apply Nat.leb_le in Hle. apply String.eqb_eq in Heq.
    exists (String.substring 0 (String.length s - String.length suffix) s).
    pose proof (substring_split s (String.length s - String.length suffix)) as Hs.
    replace (String.length s - (String.length s - String.length suffix))
      with (String.length suffix) in Hs by lia.
    rewrite Heq in Hs. apply Hs. lia.
  - intros [stem ->]. rewrite length_append. apply andb_true_iff. split.
    + apply Nat.leb_le. lia.
    + replace (String.length stem + String.length suffix - String.length suffix)
        with (String.length stem) by lia.
      rewrite substring_skip_prefix, substring_whole. apply String.eqb_refl.
Qed.

Section GateFacts.
Context {parser : PdfParser} {collab : Collaborators}.

Lemma handle_wrong_name (file : UploadFile) (s : server) :
  endswith (filename file) ".pdf" = false ->
  handle (PostAnalyze file) s = (invalid_file_type, s).
Proof.
  intros H. unfold handle, route, analyze_application. rewrite H. reflexivity.
Qed.

(** Where [analyze_application] goes once the name has passed: the string
    the extraction returned decides between the early 400 and the rest. *)
Lemma handle_flagged_text (file : UploadFile) (text : string) (s : server) :
  endswith (filename file) ".pdf" = true ->
  load_application_text_from_bytes (contents file) = Ok text ->
  str_in "Error:" text = true ->
  handle (PostAnalyze file) s
  = ({| status := 400; body := Json [("detail", text)] |}, s).
Proof.
  intros Hname Htext Hin. unfold handle, route, analyze_application.
  rewrite Hname. simpl. unfold bind, lift. rewrite Htext, Hin. reflexivity.
Qed.

Lemma handle_past_checks_status (file : UploadFile) (text : string) (s : server) :
  endswith (filename file) ".pdf" = true ->
  load_application_text_from_bytes (contents file) = Ok text ->
  str_in "Error:" text = false ->
  status (fst (handle (PostAnalyze file) s)) = 200 \/
  status (fst (handle (PostAnalyze file) s)) = 500.
Proof.
  intros Hname Htext Hin. unfold handle, route.
  rewrite (analyze_application_past_checks file text s Hname Htext Hin).
  destruct (app_state s !! "rag_chain") as [chain|]; [|now right].
  unfold try_except. destruct (bind _ _ s) as [[fields|e] s1]; [now left|now right].
Qed.
End GateFacts.

(** X1: the file-name check.  An upload is answered with the 400 "Invalid
    file type" exactly when its name is not some stem followed by ".pdf",
    in lower case; and then nothing of the server has moved. *)
Theorem invalid_file_type_iff
  (parser : PdfParser) (collab : Collaborators) (file : UploadFile) (s : server) :
  (forall stem, filename file <> stem ++ ".pdf") <->
  handle (PostAnalyze file) s = (invalid_file_type, s).
Proof.
  split.
  - intros Hno. apply handle_wrong_name.
    destruct (endswith (filename file) ".pdf") eqn:E; [|reflexivity].
    apply endswith_spec in E as [stem Hs]. now destruct (Hno stem).
  - intros Hh stem Hs.
    assert (Hname : endswith (filename file) ".pdf" = true)
      by (apply endswith_spec; eauto).
    destruct (load_application_text_returns (contents file)) as [text Htext].
    destruct (str_in "Error:" text) eqn:Hin.
    + rewrite (handle_flagged_text file text s Hname Htext Hin) in Hh.
      injection Hh as Hd. subst text. vm_compute in Hin. discriminate Hin.
    + destruct (handle_past_checks_status file text s Hname Htext Hin) as [H|H];
        rewrite Hh in H; discriminate H.
Qed.

Example upper_case_name_rejected :
  fst (@handle Stub.parser Stub.online
         (PostAnalyze (Stub.upload "LOAN.PDF" "Applicant: A. Borrower."))
         Stub.ready_online)
  = invalid_file_type.
Proof. reflexivity. Qed.

(** ** What the extraction returns *)

Section SentinelFacts.
Context {parser : PdfParser}.

Lemma pages_yield_or_raise (pages : list page) :
  (exists texts, pages_yield pages texts) \/
  Exists (fun p => exists e, extract_text p = Raise e) pages.
Proof.
  induction pages as [|p pages [[texts IH]|IH]].
  - left. exists []. constructor.
  - destruct (extract_text p) as [t|e] eqn:Hp.
    + left. exists (t :: texts). now constructor.
    + right. constructor. eauto.
  - right. now apply Exists_cons_tl.
Qed.

(** The loop stops at the first page that raises. *)
Lemma extract_pages_stops (pages : list page) (acc : string) :
  Exists (fun p => exists e, extract_text p = Raise e) pages ->
  exists e, extract_pages pages acc = Raise e.
Proof.
  intros H. revert acc. induction H as [p pages [e He]|p pages _ IH]; intros acc; simpl.
  - rewrite He. simpl. eauto.
  - destruct (extract_text p) as [t|e]; simpl; [apply IH|eauto].
Qed.

Lemma load_of_pages (pdf_bytes : list Byte.byte) (pages : list page) (texts : list string) :
  PdfReader pdf_bytes = Ok pages ->
  pages_yield pages texts ->
  load_application_text_from_bytes pdf_bytes
  = Ok (if str_falsy (page_concat texts) then could_not_read else page_concat texts).
Proof.
  intros Hr Hy. unfold load_application_text_from_bytes.
  rewrite Hr. simpl. rewrite (extract_pages_yield _ _ Hy). simpl.
  now destruct (str_falsy (page_concat texts)).
Qed.

Lemma load_of_raising_page (pdf_bytes : list Byte.byte) (pages : list page) :
  PdfReader pdf_bytes = Ok pages ->
  Exists (fun p => exists e, extract_text p = Raise e) pages ->
  load_application_text_from_bytes pdf_bytes = Ok could_not_read.
Proof.
  intros Hr Hx. unfold load_application_text_from_bytes. rewrite Hr. simpl.
  destruct (extract_pages_stops pages "" Hx) as [e ->]. reflexivity.
Qed.

Lemma load_of_raising_reader (pdf_bytes : list Byte.byte) (e : exn) :
  PdfReader pdf_bytes = Raise e ->
  load_application_text_from_bytes pdf_bytes = Ok could_not_read.
Proof.
  intros Hr. unfold load_application_text_from_bytes. rewrite Hr. reflexivity.
Qed.

Lemma load_never_empty (pdf_bytes : list Byte.byte) :
  load_application_text_from_bytes pdf_bytes <> Ok "".
Proof.
  destruct (PdfReader pdf_bytes) as [pages|e] eqn:Hr.
  - destruct (pages_yield_or_raise pages) as [[texts Hy]|Hx].
    + rewrite (load_of_pages _ _ _ Hr Hy).
      destruct (page_concat texts); simpl; discriminate.
    + rewrite (load_of_raising_page _ _ Hr Hx). discriminate.
  - rewrite (load_of_raising_reader _ _ Hr). discriminate.
Qed.
End SentinelFacts.

(** X2: the extraction never hands back the empty string: what it returns
    is the text of the pages when there is some, and the error string in
    every other case. *)
Theorem load_application_text_never_empty
  (parser : PdfParser) (pdf_bytes : list Byte.byte) :
  load_application_text_from_bytes pdf_bytes <> Ok "" /\
  (forall text, load_application_text_from_bytes pdf_bytes = Ok text ->
                text = could_not_read \/
                exists pages texts, PdfReader pdf_bytes = Ok pages /\
                                    pages_yield pages texts /\
                                    text = page_concat texts).
Proof.
  split; [apply load_never_empty|]. intros text Ht.
  destruct (PdfReader pdf_bytes) as [pages|e] eqn:Hr.
  - destruct (pages_yield_or_raise pages) as [[texts Hy]|Hx].
    + rewrite (load_of_pages _ _ _ Hr Hy) in Ht. injection Ht as <-.
      destruct (str_falsy (page_concat texts)); [now left|right; eauto].
    + rewrite (load_of_raising_page _ _ Hr Hx) in Ht. injection Ht as <-. now left.
  - rewrite (load_of_raising_reader _ _ Hr) in Ht. injection Ht as <-. now left.
Qed.

(** X3: when the error string comes back.  The extraction returns "Error:
    Could not read text from PDF." exactly when the reader raises, or a
    page raises (whatever the other pages hold), or the pages have no text
    at all, or their text is that very string. *)
Theorem error_string_iff (parser : PdfParser) (pdf_bytes : list Byte.byte) :
  load_application_text_from_bytes pdf_bytes = Ok could_not_read <->
  (exists e, PdfReader pdf_bytes = Raise e) \/
  (exists pages,
      PdfReader pdf_bytes = Ok pages /\
      (Exists (fun p => exists e, extract_text p = Raise e) pages \/
       exists texts, pages_yield pages texts /\
                     (page_concat texts = "" \/ page_concat texts = could_not_read))).
Proof.
  split.
  - intros H. destruct (PdfReader pdf_bytes) as [pages|e] eqn:Hr; [right|left; eauto].
    exists pages. split; [reflexivity|].
    destruct (pages_yield_or_raise pages) as [[texts Hy]|Hx]; [right|now left].
    exists texts. split; [exact Hy|].
    rewrite (load_of_pages _ _ _ Hr Hy) in H.
    destruct (page_concat texts) eqn:E; [now left|right]. simpl in H. congruence.
  - intros [[e Hr]|(pages & Hr & [Hx|(texts & Hy & Hc)])].
    + exact (load_of_raising_reader _ _ Hr).
    + exact (load_of_raising_page _ _ Hr Hx).
    + rewrite (load_of_pages _ _ _ Hr Hy). destruct Hc as [->| ->]; reflexivity.
Qed.

(** X4: an upload named "*.pdf" that cannot be read, because the reader
    raises, a page raises or no page has text, is answered 400 with the
    error string as detail, whether or not start-up has run, and nothing of
    the server moves. *)
Theorem unreadable_upload_rejected
  (parser : PdfParser) (collab : Collaborators) (file : UploadFile) (s : server) :
  endswith (filename file) ".pdf" = true ->
  ((exists e, PdfReader (contents file) = Raise e) \/
   (exists pages,
       PdfReader (contents file) = Ok pages /\
       (Exists (fun p => exists e, extract_text p = Raise e) pages \/
        exists texts, pages_yield pages texts /\ page_concat texts = ""))) ->
  handle (PostAnalyze file) s = (unreadable_pdf, s).
Proof.
  intros Hname Hbad.
  apply (handle_flagged_text file could_not_read s Hname); [|reflexivity].
  destruct Hbad as [[e Hr]|(pages & Hr & [Hx|(texts & Hy & Hc)])].
  - exact (load_of_raising_reader _ _ Hr).
  - exact (load_of_raising_page _ _ Hr Hx).
  - rewrite (load_of_pages _ _ _ Hr Hy), Hc. reflexivity.
Qed.

Lemma unreadable_upload_rejected_witness :
  @handle Stub.parser Stub.online (PostAnalyze Stub.blank_scan) (@Stub.boot Stub.online 0)
  = (unreadable_pdf, @Stub.boot Stub.online 0) /\
  @handle Stub.parser Stub.online (PostAnalyze (Stub.upload "empty.pdf" ""))
    Stub.ready_online
  = (unreadable_pdf, Stub.ready_online).
Proof.
  split.
  - apply (unreadable_upload_rejected Stub.parser Stub.online Stub.blank_scan);
      [reflexivity|].
    right. exists [""; ""]. split; [reflexivity|].
    right. exists [""; ""]. split; [repeat constructor|reflexivity].
  - apply (unreadable_upload_rejected Stub.parser Stub.online (Stub.upload "empty.pdf" ""));
      [reflexivity|].
    left. eexists. reflexivity.
Defined.

(** ** The answers of the handlers *)

Section AnswerFacts.
Context {parser : PdfParser} {collab : Collaborators}.

(** The analysis stage: what the handler answers with the chain at hand. *)
Lemma handle_with_chain (file : UploadFile) (text : string) (chain : rag_chain) (s : server) :
  endswith (filename file) ".pdf" = true ->
  load_application_text_from_bytes (contents file) = Ok text ->
  str_in "Error:" text = false ->
  app_state s !! "rag_chain" = Some chain ->
  handle (PostAnalyze file) s
  = match invoke chain text s with
    | (Ok out, s') => ({| status := 200; body := Json [("analysis", out_answer out)] |}, s')
    | (Raise _, s') => (analysis_failed, s')
    end.
Proof.
  intros Hname Htext Hin Hchain. unfold handle, route.
  rewrite (analyze_application_past_checks file text s Hname Htext Hin), Hchain.
  unfold try_except, bind. now destruct (invoke chain text s) as [[out|e] s'].
Qed.

Lemma handle_without_chain (file : UploadFile) (text : string) (s : server) :
  endswith (filename file) ".pdf" = true ->
  load_application_text_from_bytes (contents file) = Ok text ->
  str_in "Error:" text = false ->
  app_state s !! "rag_chain" = None ->
  handle (PostAnalyze file) s = (not_initialized, s).
Proof. apply not_ready_is_500. Qed.

Lemma handle_analyze_path (file : UploadFile) (s : server) :
  analyze_path file s (handle (PostAnalyze file) s).
Proof.
  destruct (endswith (filename file) ".pdf") eqn:Hname.
  - destruct (load_application_text_returns (contents file)) as [text Htext].
    destruct (str_in "Error:" text) eqn:Hin.
    + rewrite (handle_flagged_text file text s Hname Htext Hin).
      now apply PathFlagged.
    + destruct (app_state s !! "rag_chain") as [chain|] eqn:Hchain.
      * rewrite (handle_with_chain file text chain s Hname Htext Hin Hchain).
        destruct (invoke chain text s) as [[out|e] s'] eqn:Hinv.
        -- now apply (PathAnswered file s text chain out s').
        -- now apply (PathFailed file s text chain e s').
      * rewrite (handle_without_chain file text s Hname Htext Hin Hchain).
        now apply (PathNotInitialized file s text).
  - rewrite (handle_wrong_name file s Hname). now apply PathWrongName.
Qed.
End AnswerFacts.

(** X5: every answer that the two handlers of main.py give is one of six.
    [read_root] gives the welcome message; [analyze_application], reached
    with a file part, gives 200 with the single key "analysis", or 400
    "Invalid file type", or 400 whose detail is a string containing
    "Error:", or one of the two fixed 500 messages.  No other status code
    and no other body leaves these handlers; the answers the framework
    gives without calling them are not spoken of. *)
Theorem every_answer_classified
  (parser : PdfParser) (collab : Collaborators) (req : request) (s : server) :
  fst (handle req s)
  = {| status := 200;
       body := Json [("message", "Welcome to the Underwriting Assistant API!")] |} \/
  (exists answer,
      fst (handle req s) = {| status := 200; body := Json [("analysis", answer)] |}) \/
  fst (handle req s) = invalid_file_type \/
  (exists text, str_in "Error:" text = true /\
                fst (handle req s) = error_response 400 text) \/
  fst (handle req s) = not_initialized \/
  fst (handle req s) = analysis_failed.
Proof.
  destruct req as [|file]; [now left|].
  destruct (handle_analyze_path file s); simpl; eauto 10.
Qed.

(** X6: a request answered with a 400, or with the 500 "RAG chain not
    initialized.", leaves the whole server as it was: no word is sent to
    the embedding or the generation model and nothing is stored. *)
Theorem rejected_request_costs_nothing
  (parser : PdfParser) (collab : Collaborators) (req : request) (s : server) :
  status (fst (handle req s)) = 400 \/ fst (handle req s) = not_initialized ->
  snd (handle req s) = s.
Proof.
  destruct req as [|file]; [reflexivity|].
  destruct (handle_analyze_path file s); simpl; try reflexivity;
    intros [Hs|Hs]; discriminate Hs.
Qed.

Lemma rejected_request_costs_nothing_witness :
  snd (@handle Stub.parser Stub.online (PostAnalyze Stub.quoting_error) Stub.ready_online)
  = Stub.ready_online /\
  snd (@handle Stub.parser Stub.online (PostAnalyze Stub.two_pages) (@Stub.boot Stub.online 0))
  = @Stub.boot Stub.online 0.
Proof.
  split.
  - apply (rejected_request_costs_nothing Stub.parser Stub.online
             (PostAnalyze Stub.quoting_error) Stub.ready_online).
    left. reflexivity.
  - apply (rejected_request_costs_nothing Stub.parser Stub.online
             (PostAnalyze Stub.two_pages) (@Stub.boot Stub.online 0)).
    right. reflexivity.
Defined.

(** X7: the 200 of POST /analyze.  The handler answers 200 with "analysis"
    bound to [answer], ending in state [s'], exactly when the name ends in
    ".pdf", the extracted text has no "Error:" in it, a chain is stored,
    and that chain, invoked on the extracted text as it is, returns
    [answer] and ends in [s']: the answer of the chain is passed on
    unchanged. *)
Theorem analysis_answered_iff
  (parser : PdfParser) (collab : Collaborators)
  (file : UploadFile) (s s' : server) (answer : string) :
  handle (PostAnalyze file) s
  = ({| status := 200; body := Json [("analysis", answer)] |}, s') <->
  endswith (filename file) ".pdf" = true /\
  exists text chain out,
    load_application_text_from_bytes (contents file) = Ok text /\
    str_in "Error:" text = false /\
    app_state s !! "rag_chain" = Some chain /\
    invoke chain text s = (Ok out, s') /\
    out_answer out = answer.
Proof.
  split.
  - intros H. destruct (handle_analyze_path file s) as
        [Hn|text Hn Ht Hi|text Hn Ht Hi Hc|text chain e s1 Hn Ht Hi Hc Hv
        |text chain out s1 Hn Ht Hi Hc Hv]; try discriminate H.
    injection H as Ha Hs. subst s1.
    split; [exact Hn|]. exists text, chain, out. auto.
  - intros (Hn & text & chain & out & Ht & Hi & Hc & Hv & <-).
    rewrite (handle_with_chain file text chain s Hn Ht Hi Hc), Hv. reflexivity.
Qed.

Example two_pages_answered :
  fst (@handle Stub.parser Stub.online (PostAnalyze Stub.two_pages) Stub.ready_online)
  = {| status := 200;
       body := Json [("analysis", "**Summary:** ok. **Flagged Risks:** No risks flagged.")] |}.
Proof. reflexivity. Qed.

(** ** Start-up *)

Section StartupFacts.
Context {parser : PdfParser} {collab : Collaborators}.

Lemma read_only_embed_documents (texts : list string) : read_only (embed_documents texts).
Proof.
  induction texts as [|t texts IH]; simpl; [apply read_only_ret|].
  unfold embed_text. repeat read_only_step.
Qed.

Lemma read_only_create_vector_db (file_path : string) : read_only (create_vector_db file_path).
Proof.
  unfold create_vector_db, from_documents.
  apply read_only_bind; [auto with read_only|intros document].
  apply read_only_bind; [|auto with read_only].
  apply read_only_bind; [apply read_only_embed_documents|auto with read_only].
Qed.

Lemma lifespan_startup_outcome (s : server) :
  match lifespan_startup s with
  | (Ok _, s1) =>
      exists r s0,
        create_vector_db guidelines_path s = (Ok r, s0) /\
        app_state s1 = <["rag_chain" := create_rag_chain r]> (app_state s) /\
        outside s1 = outside s0 /\ calls s1 = calls s0
  | (Raise e, s1) =>
      create_vector_db guidelines_path s = (Raise e, s1) /\
      app_state s1 = app_state s
  end.
Proof.
  unfold lifespan_startup, bind.
  pose proof (read_only_create_vector_db guidelines_path s) as Hro.
  destruct (create_vector_db guidelines_path s) as [[r|e] s0]; simpl in *.
  - exists r, s0. rewrite Hro. auto.
  - auto.
Qed.

(** With a chain stored, no request meets the "not initialized" branch. *)
Lemma handle_initialized (req : request) (s : server) (chain : rag_chain) :
  app_state s !! "rag_chain" = Some chain ->
  fst (handle req s) <> not_initialized.
Proof.
  intros Hc. destruct req as [|file]; [discriminate|].
  destruct (handle_analyze_path file s); simpl; try discriminate. congruence.
Qed.

Lemma serve_initialized (reqs : list request) (s : server) (chain : rag_chain) :
  app_state s !! "rag_chain" = Some chain ->
  Forall (fun r => r <> not_initialized) (fst (serve reqs s)).
Proof.
  revert s. induction reqs as [|req reqs IH]; intros s Hc; simpl; [constructor|].
  pose proof (handle_initialized req s chain Hc) as Hreq.
  pose proof (handle_app_state req s) as Hst.
  destruct (handle req s) as [resp s1]. simpl in *.
  assert (Hc1 : app_state s1 !! "rag_chain" = Some chain) by (now rewrite Hst).
  specialize (IH s1 Hc1). destruct (serve reqs s1) as [resps s2]. simpl in *.
  now constructor.
Qed.
End StartupFacts.

(** X8: what start-up does to the dictionary.  When building the retriever
    succeeds, [lifespan] binds the one key "rag_chain" to the chain made of
    that retriever and of [system_prompt], and leaves every other key as it
    was; when building it raises, [lifespan] raises the same exception and
    the dictionary is not written. *)
Theorem lifespan_startup_writes_one_key (collab : Collaborators) (s : server) :
  match lifespan_startup s with
  | (Ok _, s1) =>
      exists r s0,
        create_vector_db guidelines_path s = (Ok r, s0) /\
        app_state s1 !! "rag_chain"
        = Some {| chain_retriever := r; chain_prompt := system_prompt |} /\
        forall key, key <> "rag_chain" -> app_state s1 !! key = app_state s !! key
  | (Raise e, s1) =>
      create_vector_db guidelines_path s = (Raise e, s1) /\
      app_state s1 = app_state s
  end.
Proof.
  pose proof (lifespan_startup_outcome s) as H.
  destruct (lifespan_startup s) as [[u|e] s1]; [|exact H].
  destruct H as (r & s0 & Hdb & Hst & _). exists r, s0.
  split; [exact Hdb|]. rewrite Hst. split.
  - apply lookup_insert_eq.
  - intros key Hk. apply lookup_insert_ne. congruence.
Qed.

(** X9: once start-up has succeeded, no request is answered with the 500
    "RAG chain not initialized.", however many requests came before it. *)
Theorem initialized_after_startup
  (parser : PdfParser) (collab : Collaborators) (s s1 : server) (reqs : list request) :
  lifespan_startup s = (Ok tt, s1) ->
  Forall (fun r => r <> not_initialized) (fst (serve reqs s1)).
Proof.
  intros Hs. destruct (lifespan_startup_stores s s1 Hs) as [chain Hc].
  exact (serve_initialized reqs s1 chain Hc).
Qed.

Lemma initialized_after_startup_witness :
  Forall (fun r => r <> not_initialized)
    (fst (@serve Stub.parser Stub.online
            [PostAnalyze Stub.two_pages; GetRoot; PostAnalyze Stub.blank_scan;
             PostAnalyze Stub.quoting_error; PostAnalyze Stub.two_pages]
            Stub.ready_online)).
Proof.
  apply (initialized_after_startup Stub.parser Stub.online (@Stub.boot Stub.online 0)).
  vm_compute. reflexivity.
Defined.

(** X10: shut-down empties the dictionary whatever it held, so after it a
    readable upload named "*.pdf" is answered with the 500 "RAG chain not
    initialized." and no model is called. *)
Theorem not_initialized_after_shutdown
  (parser : PdfParser) (collab : Collaborators)
  (file : UploadFile) (text : string) (s : server) :
  endswith (filename file) ".pdf" = true ->
  load_application_text_from_bytes (contents file) = Ok text ->
  str_in "Error:" text = false ->
  app_state (snd (lifespan_shutdown s)) = ∅ /\
  handle (PostAnalyze file) (snd (lifespan_shutdown s))
  = (not_initialized, snd (lifespan_shutdown s)).
Proof.
  intros Hname Htext Hin. split; [reflexivity|].
  apply (handle_without_chain file text _ Hname Htext Hin).
  apply lookup_empty.
Qed.

Lemma not_initialized_after_shutdown_witness :
  @handle Stub.parser Stub.online (PostAnalyze Stub.two_pages)
    (snd (@lifespan_shutdown Stub.online Stub.ready_online))
  = (not_initialized, snd (@lifespan_shutdown Stub.online Stub.ready_online)).
Proof.
  apply (not_initialized_after_shutdown Stub.parser Stub.online Stub.two_pages
           "Applicant: A. Borrower. Income: 5000 per month." Stub.ready_online);
    reflexivity.
Defined.

(** ** The layout of the prompt *)

Lemma system_prompt_layout :
  exists head mid tail,
    parse_format system_prompt "" None
    = Ok [Literal head; Field "context"; Literal mid; Field "input"; Literal tail] /\
    str_in "Guidelines:" head = true /\
    str_in "Loan Application:" mid = true /\
    str_in "No risks flagged." tail = true /\
    String.length head + String.length mid + String.length tail = 720.
Proof.
  do 3 eexists. split; [vm_compute; reflexivity|].
  repeat split; vm_compute; reflexivity.
Qed.

Lemma join_contains (sep : string) (parts : list string) (p : string) :
  In p parts -> substring_of p (join sep parts).
Proof.
  induction parts as [|q parts IH]; [contradiction|].
  intros [->|Hin].
  - destruct parts as [|q' parts]; simpl.
    + exists "", "". now rewrite append_empty_r.
    + exists "", (sep ++ join sep (q' :: parts)). reflexivity.
  - destruct parts as [|q' parts]; [contradiction|].
    change (join sep (q :: q' :: parts)) with (q ++ sep ++ join sep (q' :: parts)).
    do 2 apply substring_of_append_r. now apply IH.
Qed.

(** X11: the layout of the prompt.  There are three fixed pieces of text,
    720 characters in all, the first ending the instructions with the label
    "Guidelines:", the second carrying "Loan Application:", the third the
    answer format, such that for every list of chunks and every application
    text the prompt is: first piece, the chunks joined in order, second
    piece, the application text, third piece.  Braces in the chunks or in
    the application are not expanded again, and every chunk is in the
    prompt whole. *)
Theorem prompt_layout :
  exists head mid tail,
    substring_of "Guidelines:" head /\
    substring_of "Loan Application:" mid /\
    substring_of "No risks flagged." tail /\
    String.length head + String.length mid + String.length tail = 720 /\
    forall (context_chunks : list string) (application_text : string),
      compose context_chunks application_text
      = Ok (head ++ join document_separator context_chunks ++ mid
                 ++ application_text ++ tail) /\
      forall chunk, In chunk context_chunks ->
                    substring_of chunk (join document_separator context_chunks).
Proof.
  destruct system_prompt_layout as (head & mid & tail & Hp & Hg & Hl & Hn & Hlen).
  exists head, mid, tail.
  repeat (split; [now (apply str_in_sound || exact Hlen)|]).
  intros chunks text. split; [|intros chunk; apply join_contains].
  unfold compose, fill_prompt, format. rewrite Hp. cbn [Res.bind render].
  rewrite lookup_insert_eq.
  rewrite lookup_insert_ne by discriminate. rewrite lookup_insert_eq.
  cbn [Res.bind]. now rewrite append_empty_r.
Qed.

Example compose_keeps_braces :
  exists prompt,
    compose ["Rule {input}"] "Income {context} 5000" = Ok prompt /\
    substring_of "Rule {input}" prompt /\
    substring_of "Income {context} 5000" prompt.
Proof.
  eexists. split; [vm_compute; reflexivity|].
  split; apply str_in_sound; vm_compute; reflexivity.
Qed.

(** ** The page against this backend *)

Section PageFacts.
Context {parser : PdfParser} {collab : Collaborators}.
Variable dumps : payload -> string.
Variable decode_error : client_exn.

Lemma run_page_error_answer (f : UploadedFile) (s s' : server) (code : nat) (detail : string) :
  handle (PostAnalyze (sent f)) s = (error_response code detail, s') ->
  (code =? 200) = false ->
  run_page (post_to_backend dumps decode_error) (Some f) true s
  = ((page_head ++ [spinner;
                    StError ("Error from API: " ++ str_of_nat code ++ " - "
                               ++ dumps (Json [("detail", detail)]))])%list,
     None, s').
Proof.
  intros Hh Hc. unfold run_page, post_to_backend. fold (sent f). rewrite Hh.
  unfold show_response, to_response. simpl. rewrite Hc. reflexivity.
Qed.
End PageFacts.

(** X12: the page against this backend.  Whatever file is in the uploader
    and whatever state the server is in, pressing the button sends the
    name and the bytes of the file to [/analyze] once, and the script ends
    without an exception.  A 200 is shown as the heading and the answer of
    the chain, unchanged; a 400 or a 500 is shown as one error box with the
    status code and the body.  The "Could not connect" box and a missing
    "analysis" key do not occur. *)
Theorem page_against_backend
  (parser : PdfParser) (collab : Collaborators)
  (dumps : payload -> string) (decode_error : client_exn)
  (f : UploadedFile) (s : server) :
  exists r s',
    handle (PostAnalyze (sent f)) s = (r, s') /\
    ((exists answer,
         r = {| status := 200; body := Json [("analysis", answer)] |} /\
         run_page (post_to_backend dumps decode_error) (Some f) true s
         = ((page_head ++ [spinner; StSubheader "✅ Analysis Complete";
                           StMarkdown answer])%list, None, s')) \/
     (status r = 400 /\
      run_page (post_to_backend dumps decode_error) (Some f) true s
      = ((page_head ++ [spinner;
                        StError ("Error from API: 400 - " ++ dumps (body r))])%list,
         None, s')) \/
     (status r = 500 /\
      run_page (post_to_backend dumps decode_error) (Some f) true s
      = ((page_head ++ [spinner;
                        StError ("Error from API: 500 - " ++ dumps (body r))])%list,
         None, s'))).
Proof.
  destruct (handle (PostAnalyze (sent f)) s) as [r s'] eqn:Hh.
  exists r, s'. split; [reflexivity|].
  pose proof (handle_analyze_path (sent f) s) as Hp. rewrite Hh in Hp.
  inversion Hp; subst r; subst s'.
  - right. left. split; [reflexivity|].
    exact (run_page_error_answer dumps decode_error f s _ 400 _ Hh eq_refl).
  - right. left. split; [reflexivity|].
    exact (run_page_error_answer dumps decode_error f s _ 400 _ Hh eq_refl).
  - right. right. split; [reflexivity|].
    exact (run_page_error_answer dumps decode_error f s _ 500 _ Hh eq_refl).
  - right. right. split; [reflexivity|].
    exact (run_page_error_answer dumps decode_error f s _ 500 _ Hh eq_refl).
  - left. eexists. split; [reflexivity|].
    unfold run_page, post_to_backend. fold (sent f). rewrite Hh. reflexivity.
Qed.

(** The page without a file, or without the button pressed, sends nothing. *)
Example page_without_file :
  run_page (post_to_backend (parser := Stub.parser) (collab := Stub.online)
              (fun _ => "") (OtherException "")) None true Stub.ready_online
  = ((page_head ++ [StWarning "Please upload a PDF file to analyze."])%list,
     None, Stub.ready_online).
Proof. reflexivity. Qed.

(** X13: a 400 is decided by the upload alone.  If an upload is answered
    400 in one state of the server, it gets the very same answer in every
    other state: before start-up or after it, whatever chain is stored and
    whatever the models would say. *)
Theorem rejection_depends_on_upload_only
  (parser : PdfParser) (collab : Collaborators) (file : UploadFile) (s1 s2 : server) :
  status (fst (handle (PostAnalyze file) s1)) = 400 ->
  fst (handle (PostAnalyze file) s2) = fst (handle (PostAnalyze file) s1).
Proof.
  intros H400.
  destruct (handle_analyze_path file s1) as
      [Hn|text Hn Ht Hi|text Hn Ht Hi Hc|text chain e s' Hn Ht Hi Hc Hv
      |text chain out s' Hn Ht Hi Hc Hv]; try discriminate H400.
  - now rewrite (handle_wrong_name file s2 Hn).
  - now rewrite (handle_flagged_text file text s2 Hn Ht Hi).
Qed.

Lemma rejection_depends_on_upload_only_witness :
  fst (@handle Stub.parser Stub.online (PostAnalyze Stub.blank_scan) (@Stub.boot Stub.online 7))
  = unreadable_pdf.
Proof.
  rewrite (rejection_depends_on_upload_only Stub.parser Stub.online Stub.blank_scan
             Stub.ready_online (@Stub.boot Stub.online 7) eq_refl).
  reflexivity.
Defined.
